(** * TrendPulse: the response-parsing pipeline of [getMarketAnalysis]

    A shallow embedding of the text-to-report pipeline of
    [services/geminiService.ts] and of the properties stated about it.

    The repository holds four revisions of [getMarketAnalysis], each
    embedded in a module of its own, and the component that calls it:

    - [DataVariant]    : the revision with the [DATA:] marker and the
                         token-salvage fail-safe;
    - [TableVariant]   : the revision with the [DATA_TABLE:] marker and the
                         line-based ("fuzzy") re-scan below five rows;
    - [LenientVariant] : the revision with [KEYWORDS_START]/[KEYWORDS_END]
                         and the curated list of fallback words;
    - [GenericVariant] : the second [DATA_TABLE:] revision, which falls back
                         on the generic lines of the text when no row was
                         accepted (its [try] block only);
    - [App]            : the states of the component and its handlers, the
                         name of the exported file, the labels of the
                         sources and the average volume.

    Conventions of the embedding.

    - A JavaScript string is a list of code units.  The code units are
      [ascii], so the model covers the strings whose code units are below
      256 (Latin-1); white space, digits, case mapping and the regular
      expressions are written out for that range.
    - A JavaScript number is modelled by its exact value: an integer is a
      [Z], a parsed decimal is a rational, infinities and NaN are separate
      constructors.  The rounding of IEEE doubles is not modelled;
      [App.averageVolume] is given in the range where the doubles are exact.
    - [Math.random()] is an oracle [rnd : nat -> Q]; the state threaded
      through the code is the number of draws made so far.
    - The call to the generative model is outside the code: its reply is an
      input of the pipeline, and the pipeline records the calls it makes
      with the API key each one carries.  The prompt is not modelled, nor
      are [console.warn] and [console.error]; the time stamp of the report
      is an input. *)

From Stdlib Require Import List Ascii String ZArith QArith Qround Lia Bool.
From Stdlib Require Import Sorting.Sorted Sorting.Permutation.
Import ListNotations.

Set Implicit Arguments.

Local Open Scope Z_scope.

(* ================================================================== *)
(** * JavaScript strings and numbers *)
(* ================================================================== *)

Module JS.

Definition str := list ascii.

Definition lit (s : string) : str := list_ascii_of_string s.
Arguments lit s%_string.

Definition code (c : ascii) : N := N_of_ascii c.

Definition str_eqb (a b : str) : bool :=
  if list_eq_dec ascii_dec a b then true else false.

(** [\d] *)
Definition isDigit (c : ascii) : bool :=
  ((48 <=? code c) && (code c <=? 57))%N.

(** [\s], which is also the set removed by [trim]: TAB, LF, VT, FF, CR, SP and
    NBSP are the white-space and line-terminator code units below 256. *)
Definition isSpace (c : ascii) : bool :=
  match code c with
  | 9 | 10 | 11 | 12 | 13 | 32 | 160 => true
  | _ => false
  end%N.

(** [[a-zA-Z]] *)
Definition isAsciiLetter (c : ascii) : bool :=
  (((65 <=? code c) && (code c <=? 90)) || ((97 <=? code c) && (code c <=? 122)))%N.

(** [String.prototype.toLowerCase], one code unit at a time. *)
Definition lowerChar (c : ascii) : ascii :=
  let n := code c in
  if (((65 <=? n) && (n <=? 90))
      || ((192 <=? n) && (n <=? 222) && negb (n =? 215)))%N
  then ascii_of_N (n + 32) else c.

Definition toLowerCase (s : str) : str := map lowerChar s.

(** The canonical form used by a regular expression with the [i] flag:
    upper-casing, kept only when it stays below 256. *)
Definition canonicalize (c : ascii) : ascii :=
  let n := code c in
  if (((97 <=? n) && (n <=? 122))
      || ((224 <=? n) && (n <=? 254) && negb (n =? 247)))%N
  then ascii_of_N (n - 32) else c.

Fixpoint dropWhile (p : ascii -> bool) (s : str) : str :=
  match s with
  | [] => []
  | c :: s' => if p c then dropWhile p s' else s
  end.

Fixpoint takeWhile (p : ascii -> bool) (s : str) : str :=
  match s with
  | [] => []
  | c :: s' => if p c then c :: takeWhile p s' else []
  end.

Definition trimStart (s : str) : str := dropWhile isSpace s.
Definition trimEnd (s : str) : str := rev (dropWhile isSpace (rev s)).

(** [String.prototype.trim] *)
Definition trim (s : str) : str := trimEnd (trimStart s).

(** [pat] occurs at the head of [s]; [eqc] compares two code units. *)
Fixpoint prefixBy (eqc : ascii -> ascii -> bool) (pat s : str) : bool :=
  match pat, s with
  | [], _ => true
  | _ :: _, [] => false
  | p :: pat', c :: s' => eqc p c && prefixBy eqc pat' s'
  end.

Definition sameChar (a b : ascii) : bool := Ascii.eqb a b.
Definition sameCharI (a b : ascii) : bool :=
  Ascii.eqb (canonicalize a) (canonicalize b).

Definition startsWith (pat s : str) : bool := prefixBy sameChar pat s.
Definition startsWithI (pat s : str) : bool := prefixBy sameCharI pat s.

(** [s.includes(pat)] *)
Fixpoint includes (s pat : str) : bool :=
  match s with
  | [] => startsWith pat []
  | _ :: s' => startsWith pat s || includes s' pat
  end.

(** [s.split(sep)] for a separator that is one code unit out of a class, as
    in [split('|')], [split('\n')] and [split(/[\-\|]/)]. *)
Fixpoint splitOn (p : ascii -> bool) (s : str) : list str :=
  match s with
  | [] => [[]]
  | c :: s' =>
      if p c then [] :: splitOn p s'
      else match splitOn p s' with
           | [] => [[c]]
           | w :: ws => (c :: w) :: ws
           end
  end.

(** [s.split(/\s+/)]: the separators are the maximal runs of white space;
    [inSep] tells that the previous code unit belonged to a run. *)
Fixpoint splitRuns (p : ascii -> bool) (inSep : bool) (s : str) : list str :=
  match s with
  | [] => [[]]
  | c :: s' =>
      if p c then
        if inSep then splitRuns p true s' else [] :: splitRuns p true s'
      else match splitRuns p false s' with
           | [] => [[c]]
           | w :: ws => (c :: w) :: ws
           end
  end.

Definition splitWhitespace (s : str) : list str := splitRuns isSpace false s.

(** [s.split(re)] for a regular expression without groups that never matches
    the empty string.  [m s] is the length of the match of [re] at the head
    of [s], or [None]; [skip] counts the code units of the current separator
    still to be passed. *)
Fixpoint splitMatch (m : str -> option nat) (skip : nat) (s : str) : list str :=
  match s with
  | [] => [[]]
  | c :: s' =>
      match skip with
      | S k => splitMatch m k s'
      | O =>
          match m s with
          | Some (S k) => [] :: splitMatch m k s'
          | _ => match splitMatch m 0 s' with
                 | [] => [[c]]
                 | w :: ws => (c :: w) :: ws
                 end
          end
      end
  end.

(** The text after the first place where [m] matches. *)
Fixpoint afterFirst (m : str -> option nat) (s : str) : option str :=
  match m s with
  | Some k => Some (skipn k s)
  | None => match s with
            | [] => None
            | _ :: s' => afterFirst m s'
            end
  end.

(** A lazy capture [([\s\S]*?)(?=...)]: the shortest prefix after which
    [stop] holds; the end of the text always stops it. *)
Fixpoint takeUntil (stop : str -> bool) (s : str) : str :=
  match s with
  | [] => []
  | c :: s' => if stop s then [] else c :: takeUntil stop s'
  end.

(** Does [stop] hold somewhere in [s] (the end of the text excluded)? *)
Fixpoint occurs (stop : str -> bool) (s : str) : bool :=
  match s with
  | [] => false
  | _ :: s' => stop s || occurs stop s'
  end.

(** [s.replace(/^\d+[...]\s*/, '')]: a leading run of digits, one closing
    code unit of the class [closer], then white space. *)
Definition stripNumbering (closer : ascii -> bool) (s : str) : str :=
  match takeWhile isDigit s, dropWhile isDigit s with
  | _ :: _, c :: rest => if closer c then dropWhile isSpace rest else s
  | _, _ => s
  end.

(** [s.replace(/[...]/g, '')] for a class of code units. *)
Definition removeAll (p : ascii -> bool) (s : str) : str :=
  filter (fun c => negb (p c)) s.

(** [(s.match(/c/g) || []).length] *)
Definition countChar (p : ascii -> bool) (s : str) : nat :=
  List.length (filter p s).

(** ** Numbers *)

Inductive num : Type :=
| Fin (q : Q)
| Inf (negative : bool)
| NaN.

Definition digitValue (c : ascii) : Z := Z.of_N (code c) - 48.

Definition hexValue (c : ascii) : option Z :=
  let n := code c in
  if isDigit c then Some (Z.of_N n - 48)
  else if ((65 <=? n) && (n <=? 70))%N then Some (Z.of_N n - 55)
  else if ((97 <=? n) && (n <=? 102))%N then Some (Z.of_N n - 87)
  else None.

Definition isHexDigit (c : ascii) : bool :=
  match hexValue c with Some _ => true | None => false end.

Definition decimalValue (ds : str) : Z :=
  fold_left (fun acc c => 10 * acc + digitValue c) ds 0.

Definition hexadecimalValue (ds : str) : Z :=
  fold_left (fun acc c => 16 * acc + match hexValue c with Some v => v | None => 0 end) ds 0.

(** A leading sign: the factor and the rest of the text. *)
Definition takeSign (s : str) : Z * str :=
  match s with
  | c :: r =>
      if Ascii.eqb c "-" then (-1, r)
      else if Ascii.eqb c "+" then (1, r)
      else (1, s)
  | [] => (1, s)
  end.

(** The text after a leading [0x] or [0X]. *)
Definition hexPrefix (s : str) : option str :=
  match s with
  | c0 :: c1 :: r =>
      if Ascii.eqb c0 "0" && (Ascii.eqb c1 "x" || Ascii.eqb c1 "X")
      then Some r else None
  | _ => None
  end.

(** [parseInt(s)] without a radix: leading white space, a sign, [0x] for
    base sixteen, then the longest run of digits; [None] is NaN. *)
Definition parseInt (s : str) : option Z :=
  let (sign, s1) := takeSign (trimStart s) in
  match hexPrefix s1 with
  | Some r =>
      match takeWhile isHexDigit r with
      | [] => None
      | ds => Some (sign * hexadecimalValue ds)
      end
  | None =>
      match takeWhile isDigit s1 with
      | [] => None
      | ds => Some (sign * decimalValue ds)
      end
  end.

(** The exponent part [[eE][+-]?\d+] at the head of [s], when complete. *)
Definition exponentPart (s : str) : Z :=
  match s with
  | c :: r =>
      if Ascii.eqb c "e" || Ascii.eqb c "E" then
        let (sign, r1) := takeSign r in
        match takeWhile isDigit r1 with
        | [] => 0
        | ds => sign * decimalValue ds
        end
      else 0
  | [] => 0
  end.

(** [m * 10^e] as a reduced fraction. *)
Definition scale10 (m e : Z) : Q :=
  if 0 <=? e then Qmake (m * 10 ^ e) 1
  else Qred (Qmake m (Z.to_pos (10 ^ (- e)))).

(** [parseFloat(s)]: leading white space, a sign, then the longest prefix
    that is [Infinity] or a decimal literal. *)
Definition parseFloat (s : str) : num :=
  let (sign, s1) := takeSign (trimStart s) in
  if startsWith (lit "Infinity") s1 then Inf (sign <? 0)
  else
    let ip := takeWhile isDigit s1 in
    let r1 := dropWhile isDigit s1 in
    let (fp, r2) :=
      match r1 with
      | c :: r =>
          if Ascii.eqb c "." then (takeWhile isDigit r, dropWhile isDigit r)
          else ([], r1)
      | [] => ([], r1)
      end in
    match ip, fp with
    | [], [] => NaN
    | _, _ =>
        let mant := decimalValue (ip ++ fp) in
        let e := exponentPart r2 - Z.of_nat (List.length fp) in
        Fin (scale10 (sign * mant) e)
    end.

(** [ToString] of a value that may be [undefined]. *)
Definition toStringU (o : option str) : str :=
  match o with
  | Some s => s
  | None => lit "undefined"
  end.

(** [x || 0] on numbers: NaN and zero are falsy. *)
Definition orZeroZ (o : option Z) : Z :=
  match o with
  | Some v => v
  | None => 0
  end.

Definition orZero (x : num) : num :=
  match x with
  | NaN => Fin 0
  | Fin q => if Qeq_bool q 0 then Fin 0 else Fin q
  | Inf b => Inf b
  end.

(** A string is truthy when it is not empty. *)
Definition truthy (s : str) : bool :=
  match s with
  | [] => false
  | _ :: _ => true
  end.

(** [s || d] on strings that may be [undefined]: the empty string is falsy. *)
Definition orDefault (o : option str) (d : str) : str :=
  match o with
  | Some (c :: s) => c :: s
  | _ => d
  end.

End JS.

Import JS.

(* ================================================================== *)
(** * The data model ([types.ts]) *)
(* ================================================================== *)

Inductive Trend : Type := up | down | stable.

Record TrendData : Type := mkTrendData {
  keyword : str;
  volume : Z;
  trend : Trend;
  changePercentage : num;
  relevanceScore : Z
}.

Record Source : Type := mkSource {
  title : str;
  uri : str
}.

Record MarketReport : Type := mkMarketReport {
  profession : str;
  summary : str;
  topKeywords : list TrendData;
  sources : list Source;
  generatedAt : str
}.

(* ================================================================== *)
(** * The collaborators: the generative model and the random source *)
(* ================================================================== *)

(** One grounding chunk: [chunk.web] with its optional title and uri. *)
Record Chunk : Type := mkChunk {
  web : option (option str * option str)
}.

(** What [ai.models.generateContent] does: the promise is rejected with an
    error that may carry a message, or it resolves to a response with an
    optional text and optional grounding chunks. *)
Inductive Reply : Type :=
| Rejected (message : option str)
| Resolved (text : option str) (groundingChunks : option (list Chunk)).

(** A thrown value. *)
Inductive Exn : Type :=
| TypeError
| Error (message : option str).

(** The message V8 gives to a method call on [undefined]. *)
Definition typeErrorMessage : str :=
  lit "Cannot read properties of undefined".

Definition messageOf (e : Exn) : option str :=
  match e with
  | TypeError => Some typeErrorMessage
  | Error m => m
  end.

Inductive Outcome : Type :=
| Success (report : MarketReport)
| Failure (e : Exn).

(** One run of [getMarketAnalysis]: the API keys of the calls made to the
    generative model, in order, and the way the promise settles. *)
Record Run : Type := mkRun {
  calls : list str;
  outcome : Outcome
}.

(** ** A monad for the body of the [try] block

    A computation reads the number of [Math.random()] draws made so far and
    either returns a value with the new count or throws. *)

Inductive Res (A : Type) : Type :=
| Ret (a : A) (draws : nat)
| Raise (e : Exn).
Arguments Ret {A} a draws.
Arguments Raise {A} e.

Definition M (A : Type) : Type := nat -> Res A.

Definition ret {A : Type} (a : A) : M A := fun n => Ret a n.

Definition throw {A : Type} (e : Exn) : M A := fun _ => Raise e.

Definition bind {A B : Type} (m : M A) (k : A -> M B) : M B :=
  fun n =>
    match m n with
    | Ret a n' => k a n'
    | Raise e => Raise e
    end.

Notation "x <- m ;; k" := (bind m (fun x => k))
  (at level 61, m at next level, right associativity).

(** [o.method(...)] or [o.length] on a value that may be [undefined]. *)
Definition member (o : option str) : M str :=
  match o with
  | Some s => ret s
  | None => throw TypeError
  end.

(** [xs.forEach(x => ...)] where the callback may push onto [keywordList]. *)
Fixpoint forEach {A : Type} (f : A -> list TrendData -> M (list TrendData))
    (xs : list A) (keywordList : list TrendData) : M (list TrendData) :=
  match xs with
  | [] => ret keywordList
  | x :: xs' => bind (f x keywordList) (forEach f xs')
  end.

(** The callback of a [forEach] that pushes the record its body accepts. *)
Definition pushing {A : Type} (body : nat -> A -> M (option TrendData))
    (x : A) (keywordList : list TrendData) : M (list TrendData) :=
  r <- body (List.length keywordList) x ;;
  ret (match r with
       | Some d => keywordList ++ [d]
       | None => keywordList
       end).

Section Collaborators.

(** [rnd i] is what the [i]-th call of [Math.random()] returns. *)
Variable rnd : nat -> Q.

(** [Math.floor(Math.random() * range) + offset] *)
Definition randomInt (range offset : Z) : M Z :=
  fun n => Ret (Qfloor (rnd n * inject_Z range) + offset) (S n).

End Collaborators.

(** The oracle is a random source when every draw lies in [0, 1). *)
Definition unitInterval (rnd : nat -> Q) : Prop :=
  forall i, (0 <= rnd i)%Q /\ (rnd i < 1)%Q.

(* ================================================================== *)
(** * What the revisions share *)
(* ================================================================== *)

Definition isPipe (c : ascii) : bool := Ascii.eqb c "|".
Definition isNewline (c : ascii) : bool := Ascii.eqb c "010".
Definition isComma (c : ascii) : bool := Ascii.eqb c ",".
Definition isPercent (c : ascii) : bool := Ascii.eqb c "%".
Definition isDot (c : ascii) : bool := Ascii.eqb c ".".
Definition isDotOrParen (c : ascii) : bool := Ascii.eqb c "." || Ascii.eqb c ")".
Definition isDashOrPipe (c : ascii) : bool := Ascii.eqb c "-" || Ascii.eqb c "|".
Definition notDigit (c : ascii) : bool := negb (isDigit c).

(** [[^0-9\.\-]] *)
Definition notNumeric (c : ascii) : bool :=
  negb (isDigit c || Ascii.eqb c "." || Ascii.eqb c "-").

(** [[^a-zA-Z ]] *)
Definition notLetterOrBlank (c : ascii) : bool :=
  negb (isAsciiLetter c || Ascii.eqb c " ").

(** [tr.includes('up') ? 'up' : (tr.includes('down') ? 'down' : 'stable')] *)
Definition classifyTrend (tr : str) : Trend :=
  if includes tr (lit "up") then up
  else if includes tr (lit "down") then down
  else stable.

(** A match of the literal [pat] at the head of the text. *)
Definition matchLit (pat : str) (s : str) : option nat :=
  if startsWith pat s then Some (List.length pat) else None.

Definition matchLitI (pat : str) (s : str) : option nat :=
  if startsWithI pat s then Some (List.length pat) else None.

(** ** The report assembler *)

(** [(a, b) => b.volume - a.volume] *)
Definition byVolumeDesc (a b : TrendData) : Z := volume b - volume a.

(** [Array.prototype.sort] is a stable sort: an element goes in front of the
    first one that the comparison does not put before it. *)
Fixpoint insert (cmp : TrendData -> TrendData -> Z) (x : TrendData)
    (l : list TrendData) : list TrendData :=
  match l with
  | [] => [x]
  | y :: l' => if cmp x y <=? 0 then x :: l else y :: insert cmp x l'
  end.

Definition sort (cmp : TrendData -> TrendData -> Z) (l : list TrendData)
  : list TrendData :=
  fold_right (insert cmp) [] l.

(** [keywordList.sort((a, b) => b.volume - a.volume).slice(0, 50)] *)
Definition assemble (keywordList : list TrendData) : list TrendData :=
  firstn 50 (sort byVolumeDesc keywordList).

(** [response.candidates?.[0]?.groundingMetadata?.groundingChunks?.map(...) || []] *)
Definition sourcesOf (fallbackTitle : str) (chunks : option (list Chunk))
  : list Source :=
  match chunks with
  | None => []
  | Some cs =>
      map (fun c =>
             match web c with
             | Some (t, u) =>
                 mkSource (orDefault t fallbackTitle) (orDefault u (lit "#"))
             | None => mkSource fallbackTitle (lit "#")
             end) cs
  end.

(** [text.match(/SUMMARY:\s*(.*?)(?=MARKER|$)/)[1].trim()], or the
    placeholder when the text has no summary marker; [m] matches
    [SUMMARY:] and [stop] is the look-ahead. *)
Definition summaryBetween (m : str -> option nat) (stop : str -> bool)
    (placeholder : str) (text : str) : str :=
  match afterFirst m text with
  | Some rest => trim (takeUntil stop (dropWhile isSpace rest))
  | None => placeholder
  end.

(** [!apiKey || apiKey === "undefined" || apiKey.length < 5] *)
Definition keyRejected (apiKey : option str) : bool :=
  match apiKey with
  | None => true
  | Some k =>
      negb (truthy k)
      || str_eqb k (lit "undefined")
      || (List.length k <? 5)%nat
  end.

(* ================================================================== *)
(** * The [DATA_TABLE:] revision: structured rows, then the line re-scan *)
(* ================================================================== *)

Module TableVariant.

Definition configurationMessage : str :=
  lit "API Key is missing. Please ensure 'API_KEY' is correctly set in your Vercel Environment Variables.".

Definition emptyResponseMessage : str :=
  lit "The AI returned an empty response. This might be due to content safety filters or an invalid query.".

Definition extractionMessage : str :=
  lit "Could not extract market data. The AI response was not in the expected format.".

Definition summaryPlaceholder : str :=
  lit "Analysis complete. Trending data provided based on current market patterns.".

Definition extractSummary (text : str) : str :=
  summaryBetween (matchLitI (lit "SUMMARY:"))
    (startsWithI (lit "DATA_TABLE:")) summaryPlaceholder text.

(** [text.split(/DATA_TABLE:/i)[1]] *)
Definition tablePart (text : str) : option str :=
  nth_error (splitMatch (matchLitI (lit "DATA_TABLE:")) 0 text) 1.

Section WithRandom.

Variable rnd : nat -> Q.

(** The row parser: the body of the callback of the first [forEach].
    [count] is [keywordList.length]; the result is the record pushed, if
    any. *)
Definition parseRow (count : nat) (line : str) : M (option TrendData) :=
  if (2 <=? countChar isPipe line)%nat then
    let parts := map trim (splitOn isPipe line) in
    if (3 <=? List.length parts)%nat then
      p0 <- member (nth_error parts 0) ;;
      let kw := stripNumbering isDotOrParen p0 in
      p1 <- member (nth_error parts 1) ;;
      let volStr := removeAll notDigit (removeAll isComma p1) in
      let vol := orZeroZ (parseInt volStr) in
      p2 <- member (nth_error parts 2) ;;
      let tr := toLowerCase p2 in
      let chStr :=
        option_map (fun p3 => removeAll notNumeric (removeAll isPercent p3))
          (nth_error parts 3) in
      let ch := orZero (parseFloat (toStringU chStr)) in
      if truthy kw && (1 <? List.length kw)%nat
         && negb (includes (toLowerCase kw) (lit "term"))
         && negb (includes (toLowerCase kw) (lit "keyword"))
      then
        v <- (if 0 <? vol then ret vol else randomInt rnd 15000 500) ;;
        ret (Some {| keyword := kw;
                     volume := v;
                     trend := classifyTrend tr;
                     changePercentage := ch;
                     relevanceScore := 100 - Z.of_nat count |})
      else ret None
    else ret None
  else ret None.

(** The table parser: [tablePart.trim().split('\n').forEach(...)], run only
    when [tablePart] is truthy. *)
Definition parseTable (text : str) : M (list TrendData) :=
  match tablePart text with
  | Some (c :: t) =>
      forEach (pushing parseRow) (splitOn isNewline (trim (c :: t))) []
  | _ => ret []
  end.

(** The body of the callback of the second [forEach]. *)
Definition looseRow (count : nat) (line : str) : M (option TrendData) :=
  let parts := map trim (splitOn isDashOrPipe line) in
  if (2 <=? List.length parts)%nat then
    p0 <- member (nth_error parts 0) ;;
    if (2 <? List.length p0)%nat && (List.length p0 <? 50)%nat then
      let kw := stripNumbering isDotOrParen p0 in
      if negb (includes (toLowerCase kw) (lit "summary"))
         && negb (includes (toLowerCase kw) (lit "data"))
      then
        v <- randomInt rnd 10000 1000 ;;
        ret (Some {| keyword := kw;
                     volume := v;
                     trend := stable;
                     changePercentage := Fin 0;
                     relevanceScore := 50 |})
      else ret None
    else ret None
  else ret None.

(** [if (keywordList.length < 5) { text.split('\n').forEach(...) }] *)
Definition rescan (text : str) (keywordList : list TrendData)
  : M (list TrendData) :=
  if (List.length keywordList <? 5)%nat
  then forEach (pushing looseRow) (splitOn isNewline text) keywordList
  else ret keywordList.

(** The candidate list, or the extraction error. *)
Definition extract (text : str) : M (list TrendData) :=
  keywordList <- parseTable text ;;
  keywordList <- rescan text keywordList ;;
  if (List.length keywordList =? 0)%nat
  then throw (Error (Some extractionMessage))
  else ret keywordList.

(** The body of the [try] block once the response has arrived. *)
Definition analyse (profession now : str) (text : option str)
    (chunks : option (list Chunk)) : M MarketReport :=
  let text := orDefault text [] in
  match text with
  | [] => throw (Error (Some emptyResponseMessage))
  | _ =>
      let sources := sourcesOf (lit "Market Source") chunks in
      let summary := extractSummary text in
      keywordList <- extract text ;;
      ret {| profession := profession;
             summary := summary;
             topKeywords := assemble keywordList;
             sources := sources;
             generatedAt := now |}
  end.

(** The [catch] block: what is thrown again. *)
Definition handler (e : Exn) : Exn :=
  let errorMessage :=
    orDefault (messageOf e) (lit "An unexpected error occurred during analysis.") in
  if includes errorMessage (lit "403")
  then Error (Some (lit "Access Denied: Please verify your API Key and ensure Google Search Grounding is enabled in your project."))
  else Error (Some errorMessage).

Definition getMarketAnalysis (apiKey : option str) (profession now : str)
    (reply : Reply) : Run :=
  if keyRejected apiKey then
    {| calls := []; outcome := Failure (Error (Some configurationMessage)) |}
  else
    {| calls := [toStringU apiKey];
       outcome :=
         match reply with
         | Rejected m => Failure (handler (Error m))
         | Resolved text chunks =>
             match analyse profession now text chunks 0%nat with
             | Ret report _ => Success report
             | Raise e => Failure (handler e)
             end
         end |}.

End WithRandom.

End TableVariant.

(* ================================================================== *)
(** * The [DATA:] revision: structured rows, then token salvage *)
(* ================================================================== *)

Module DataVariant.

Definition configurationMessage : str :=
  lit "API Key is missing. Please ensure you have added 'API_KEY' to your Vercel Environment Variables.".

Definition emptyResponseMessage : str :=
  lit "The AI returned an empty response. This can happen if the topic is sensitive or unsupported.".

Definition extractionMessage : str :=
  lit "Could not extract structured data from the analysis. Please try a simpler search term.".

Definition summaryPlaceholder : str :=
  lit "Market analysis complete. Review the trending data below.".

Definition extractSummary (text : str) : str :=
  summaryBetween (matchLit (lit "SUMMARY:"))
    (startsWith (lit "DATA:")) summaryPlaceholder text.

(** A match of [/DATA:[\s\n]*/i] at the head of the text. *)
Definition matchData (s : str) : option nat :=
  if startsWithI (lit "DATA:") s
  then Some (5 + List.length (takeWhile isSpace (skipn 5 s)))%nat
  else None.

(** [dataParts.length > 1 ? dataParts[1] : ''] *)
Definition keywordSection (text : str) : str :=
  let dataParts := splitMatch matchData 0 text in
  if (1 <? List.length dataParts)%nat
  then nth 1 dataParts []
  else [].

Section WithRandom.

Variable rnd : nat -> Q.

(** The row parser of this revision: the body of the [forEach] callback. *)
Definition parseRow (count : nat) (line : str) : M (option TrendData) :=
  let parts := map trim (splitOn isPipe line) in
  if (3 <=? List.length parts)%nat then
    p0 <- member (nth_error parts 0) ;;
    let kw := stripNumbering isDot p0 in
    p1 <- member (nth_error parts 1) ;;
    let vol := orZeroZ (parseInt (removeAll isComma p1)) in
    p2 <- member (nth_error parts 2) ;;
    let tr := toLowerCase p2 in
    let ch := orZero (parseFloat (toStringU (nth_error parts 3))) in
    if truthy kw && (1 <? List.length kw)%nat then
      v <- (if 0 <? vol then ret vol else randomInt rnd 15000 500) ;;
      ret (Some {| keyword := kw;
                   volume := v;
                   trend := classifyTrend tr;
                   changePercentage := ch;
                   relevanceScore := 100 - Z.of_nat count |})
    else ret None
  else ret None.

Definition parseTable (text : str) : M (list TrendData) :=
  match keywordSection text with
  | [] => ret []
  | section => forEach (pushing parseRow) (splitOn isNewline (trim section)) []
  end.

(** [text.split(/\s+/).filter(w => w.length > 5).slice(0, 10)] *)
Definition salvageWords (text : str) : list str :=
  firstn 10 (filter (fun w => (5 <? List.length w)%nat) (splitWhitespace text)).

Definition salvaged (w : str) : TrendData :=
  {| keyword := removeAll notLetterOrBlank w;
     volume := 5000;
     trend := stable;
     changePercentage := Fin 0;
     relevanceScore := 50 |}.

(** The fail-safe: [if (keywordList.length === 0) { ... }] *)
Definition salvage (text : str) (keywordList : list TrendData)
  : M (list TrendData) :=
  if (List.length keywordList =? 0)%nat then
    let words := salvageWords text in
    if (0 <? List.length words)%nat
    then forEach (pushing (fun _ w => ret (Some (salvaged w)))) words keywordList
    else throw (Error (Some extractionMessage))
  else ret keywordList.

Definition extract (text : str) : M (list TrendData) :=
  keywordList <- parseTable text ;;
  salvage text keywordList.

Definition analyse (profession now : str) (text : option str)
    (chunks : option (list Chunk)) : M MarketReport :=
  let text := orDefault text [] in
  match text with
  | [] => throw (Error (Some emptyResponseMessage))
  | _ =>
      let sources := sourcesOf (lit "Market Reference") chunks in
      let summary := extractSummary text in
      keywordList <- extract text ;;
      ret {| profession := profession;
             summary := summary;
             topKeywords := assemble keywordList;
             sources := sources;
             generatedAt := now |}
  end.

(** [error.message?.includes(pat)] *)
Definition messageIncludes (e : Exn) (pat : str) : bool :=
  match messageOf e with
  | Some m => includes m pat
  | None => false
  end.

Definition handler (e : Exn) : Exn :=
  if messageIncludes e (lit "403")
  then Error (Some (lit "API Key permissions error. Ensure your key is from a paid project or has the correct model access."))
  else if messageIncludes e (lit "429")
  then Error (Some (lit "Too many requests. Please wait a moment and try again."))
  else Error (Some (orDefault (messageOf e)
                      (lit "An unexpected error occurred during market analysis."))).

Definition getMarketAnalysis (apiKey : option str) (profession now : str)
    (reply : Reply) : Run :=
  if keyRejected apiKey then
    {| calls := []; outcome := Failure (Error (Some configurationMessage)) |}
  else
    {| calls := [toStringU apiKey];
       outcome :=
         match reply with
         | Rejected m => Failure (handler (Error m))
         | Resolved text chunks =>
             match analyse profession now text chunks 0%nat with
             | Ret report _ => Success report
             | Raise e => Failure (handler e)
             end
         end |}.

End WithRandom.

End DataVariant.

(* ================================================================== *)
(** * The [KEYWORDS_START] revision: rows, then the curated fallback *)
(* ================================================================== *)

Module LenientVariant.

Definition summaryPlaceholder : str :=
  lit "Analysis complete. View the data below.".

Definition extractSummary (text : str) : str :=
  summaryBetween (matchLit (lit "SUMMARY:"))
    (startsWith (lit "KEYWORDS_START")) summaryPlaceholder text.

(** [text.match(/KEYWORDS_START\s*([\s\S]*?)\s*KEYWORDS_END/)]: the first
    group of the match, when there is one. *)
Definition keywordBlock (text : str) : option str :=
  match afterFirst (matchLit (lit "KEYWORDS_START")) text with
  | Some rest =>
      if occurs (startsWith (lit "KEYWORDS_END")) rest
      then Some (takeUntil
                   (fun s => startsWith (lit "KEYWORDS_END") (dropWhile isSpace s))
                   (dropWhile isSpace rest))
      else None
  | None => None
  end.

Definition fallbackWords : list str :=
  [ lit "Market growth"; lit "Digital transformation";
    lit "Customer experience"; lit "Eco-friendly solutions";
    lit "Price optimization" ].

Definition curated (w : str) : TrendData :=
  {| keyword := w;
     volume := 12000;
     trend := up;
     changePercentage := Fin 15;
     relevanceScore := 85 |}.

(** The callback of [fallbackWords.forEach]:
    [if (!keywordList.find(k => k.keyword === w)) keywordList.push(...)] *)
Definition inject (keywordList : list TrendData) (w : str) : list TrendData :=
  if existsb (fun k => str_eqb (keyword k) w) keywordList
  then keywordList
  else keywordList ++ [curated w].

(** [if (keywordList.length < 5) { fallbackWords.forEach(...) }] *)
Definition curatedFallback (keywordList : list TrendData) : list TrendData :=
  if (List.length keywordList <? 5)%nat
  then fold_left inject fallbackWords keywordList
  else keywordList.

Section WithRandom.

Variable rnd : nat -> Q.

(** [parseInt(volumeStr) || Math.floor(Math.random() * 50000) + 1000] *)
Definition volumeOr (parsed : option Z) : M Z :=
  match parsed with
  | Some v => if v =? 0 then randomInt rnd 50000 1000 else ret v
  | None => randomInt rnd 50000 1000
  end.

(** The row parser of this revision: the body of the [forEach] callback. *)
Definition parseRow (count : nat) (line : str) : M (option TrendData) :=
  let parts := splitOn isPipe line in
  if (3 <=? List.length parts)%nat
     && negb (includes line (lit "Keyword|Volume"))
  then
    p1 <- member (nth_error parts 1) ;;
    let volumeStr := removeAll notDigit p1 in
    let changeStr :=
      orDefault (option_map (removeAll notNumeric) (nth_error parts 3))
        (lit "0") in
    p0 <- member (nth_error parts 0) ;;
    v <- volumeOr (parseInt volumeStr) ;;
    p2 <- member (nth_error parts 2) ;;
    r <- randomInt rnd 30 70 ;;
    ret (Some {| keyword := trim p0;
                 volume := v;
                 trend := classifyTrend (toLowerCase p2);
                 changePercentage := orZero (parseFloat changeStr);
                 relevanceScore := r |})
  else ret None.

Definition parseTable (text : str) : M (list TrendData) :=
  match keywordBlock text with
  | Some block =>
      forEach (pushing parseRow) (splitOn isNewline (trim block)) []
  | None => ret []
  end.

Definition extract (text : str) : M (list TrendData) :=
  keywordList <- parseTable text ;;
  ret (curatedFallback keywordList).

Definition analyse (profession now : str) (text : option str)
    (chunks : option (list Chunk)) : M MarketReport :=
  let text := orDefault text [] in
  let sources := sourcesOf (lit "Source") chunks in
  let summary := extractSummary text in
  keywordList <- extract text ;;
  ret {| profession := profession;
         summary := summary;
         topKeywords := assemble keywordList;
         sources := sources;
         generatedAt := now |}.

(** The client is built with [process.env.API_KEY || ''], unchecked, and the
    [catch] block throws the error it caught. *)
Definition getMarketAnalysis (apiKey : option str) (profession now : str)
    (reply : Reply) : Run :=
  {| calls := [orDefault apiKey []];
     outcome :=
       match reply with
       | Rejected m => Failure (Error m)
       | Resolved text chunks =>
           match analyse profession now text chunks 0%nat with
           | Ret report _ => Success report
           | Raise e => Failure e
           end
       end |}.

End WithRandom.

End LenientVariant.

(* ================================================================== *)
(** * The second [DATA_TABLE:] revision: rows, then the generic lines *)
(* ================================================================== *)

(** The body of the [try] block of this revision.  Its [catch] block reads
    the message of the error with [JSON.parse] and is not embedded. *)
Module GenericVariant.

Definition emptyResponseMessage : str :=
  lit "The AI returned an empty response. Please try a different keyword.".

Definition extractionMessage : str :=
  lit "Could not extract market data from the AI response. Please try again.".

Definition summaryPlaceholder : str :=
  lit "Analysis complete. Review the trending data below.".

Definition extractSummary (text : str) : str :=
  summaryBetween (matchLitI (lit "SUMMARY:"))
    (startsWithI (lit "DATA_TABLE:")) summaryPlaceholder text.

(** [text.split(/DATA_TABLE:/i)[1]] *)
Definition tablePart (text : str) : option str :=
  nth_error (splitMatch (matchLitI (lit "DATA_TABLE:")) 0 text) 1.

(** [[|:-]] *)
Definition isPipeColonDash (c : ascii) : bool :=
  Ascii.eqb c "|" || Ascii.eqb c ":" || Ascii.eqb c "-".

(** [text.split('\n').filter(l => l.includes('|') || l.length > 15).slice(0, 50)] *)
Definition genericLines (text : str) : list str :=
  firstn 50
    (filter (fun l => includes l (lit "|") || (15 <? List.length l)%nat)
       (splitOn isNewline text)).

Section WithRandom.

Variable rnd : nat -> Q.

(** The body of the callback of the first [forEach]. *)
Definition parseRow (count : nat) (line : str) : M (option TrendData) :=
  if (2 <=? countChar isPipe line)%nat then
    let parts := map trim (splitOn isPipe line) in
    if (3 <=? List.length parts)%nat then
      p0 <- member (nth_error parts 0) ;;
      let kw := stripNumbering isDotOrParen p0 in
      p1 <- member (nth_error parts 1) ;;
      let volStr := removeAll notDigit (removeAll isComma p1) in
      let vol := orZeroZ (parseInt volStr) in
      p2 <- member (nth_error parts 2) ;;
      let tr := toLowerCase p2 in
      let chStr :=
        option_map (fun p3 => removeAll notNumeric (removeAll isPercent p3))
          (nth_error parts 3) in
      let ch := orZero (parseFloat (toStringU chStr)) in
      if truthy kw && (1 <? List.length kw)%nat
         && negb (includes (toLowerCase kw) (lit "term"))
         && negb (includes (toLowerCase kw) (lit "keyword"))
      then
        v <- (if 0 <? vol then ret vol else randomInt rnd 10000 500) ;;
        ret (Some {| keyword := kw;
                     volume := v;
                     trend := classifyTrend tr;
                     changePercentage := ch;
                     relevanceScore := 100 - Z.of_nat count |})
      else ret None
    else ret None
  else ret None.

Definition parseTable (text : str) : M (list TrendData) :=
  match tablePart text with
  | Some (c :: t) =>
      forEach (pushing parseRow) (splitOn isNewline (trim (c :: t))) []
  | _ => ret []
  end.

(** The body of the callback of [genericLines.forEach]. *)
Definition genericRow (count : nat) (line : str) : M (option TrendData) :=
  p0 <- member (nth_error (splitOn isPipeColonDash line) 0) ;;
  let cleanKw := stripNumbering isDotOrParen (trim p0) in
  if (2 <? List.length cleanKw)%nat && (List.length cleanKw <? 50)%nat
     && negb (includes (toLowerCase cleanKw) (lit "summary"))
  then
    v <- randomInt rnd 5000 1000 ;;
    ret (Some {| keyword := cleanKw;
                 volume := v;
                 trend := stable;
                 changePercentage := Fin 0;
                 relevanceScore := 50 |})
  else ret None.

(** [if (keywordList.length === 0) { genericLines.forEach(...) }] *)
Definition fallback (text : str) (keywordList : list TrendData)
  : M (list TrendData) :=
  if (List.length keywordList =? 0)%nat
  then forEach (pushing genericRow) (genericLines text) keywordList
  else ret keywordList.

Definition extract (text : str) : M (list TrendData) :=
  keywordList <- parseTable text ;;
  keywordList <- fallback text keywordList ;;
  if (List.length keywordList =? 0)%nat
  then throw (Error (Some extractionMessage))
  else ret keywordList.

Definition analyse (profession now : str) (text : option str)
    (chunks : option (list Chunk)) : M MarketReport :=
  let text := orDefault text [] in
  match text with
  | [] => throw (Error (Some emptyResponseMessage))
  | _ =>
      let sources := sourcesOf (lit "Market Source") chunks in
      let summary := extractSummary text in
      keywordList <- extract text ;;
      ret {| profession := profession;
             summary := summary;
             topKeywords := assemble keywordList;
             sources := sources;
             generatedAt := now |}
  end.

End WithRandom.

End GenericVariant.

(* ================================================================== *)
(** * The application ([App.tsx]) *)
(* ================================================================== *)

(** The state of the component and the handlers that change it.  A handler
    reads the state of the render it belongs to; the model lets every event
    see the state that the events before it have left. *)
Module App.

Inductive AppState : Type := IDLE | LOADING | RESULTS | ERROR.

Definition isLoading (s : AppState) : bool :=
  match s with
  | LOADING => true
  | _ => false
  end.

Definition isError (s : AppState) : bool :=
  match s with
  | ERROR => true
  | _ => false
  end.

(** The four [useState] cells. *)
Record State : Type := mkState {
  profession : str;
  status : AppState;
  report : option MarketReport;
  error : option str
}.

Definition initial : State :=
  {| profession := []; status := IDLE; report := None; error := None |}.

(** The test at the head of [handleSearch],
    [!profession.trim() || status === AppState.LOADING], on the state that
    the render of the handler has captured. *)
Definition returnsAtOnce (captured : State) : bool :=
  negb (truthy (trim (profession captured))) || isLoading (status captured).

(** [setStatus(AppState.LOADING); setError(null)] *)
Definition beginSearch (a : State) : State :=
  {| profession := profession a;
     status := LOADING;
     report := report a;
     error := None |}.

(** [err.message || "We encountered an issue analyzing the market data."] *)
Definition errorText (e : Exn) : str :=
  orDefault (messageOf e)
    (lit "We encountered an issue analyzing the market data.").

(** [handleSearch] after the [await]. *)
Definition finishSearch (a : State) (o : Outcome) : State :=
  match o with
  | Success data =>
      {| profession := profession a;
         status := RESULTS;
         report := Some data;
         error := error a |}
  | Failure e =>
      {| profession := profession a;
         status := ERROR;
         report := report a;
         error := Some (errorText e) |}
  end.

(** [handleUnload] *)
Definition handleUnload (a : State) : State :=
  {| profession := []; status := status a; report := None; error := error a |}.

(** What can happen to the component: the input field changes, the form is
    submitted, one of the analyses under way settles (the one at position
    [i], in the order in which they were started), the button of the error
    panel is clicked, the page is left, the component renders again. *)
Inductive Event : Type :=
| Change (value : str)
| Submit
| Settle (i : nat) (o : Outcome)
| Dismiss
| Unload
| Render.

(** The component: the four cells, the state that the handlers of the last
    render have captured, and the analyses that are under way, each with
    the profession it was started for. *)
Record World : Type := mkWorld {
  state : State;
  view : State;
  pending : list str
}.

(** One event.  The handlers of the form and of the error panel read the
    state their render has captured and write the cells; the button of the
    error panel exists only when that render was in the [ERROR] state; an
    analysis settles only when one is under way.  An event that cannot
    happen leaves the world as it is. *)
Definition step (w : World) (e : Event) : World :=
  match e with
  | Change value =>
      {| state := {| profession := value;
                     status := status (state w);
                     report := report (state w);
                     error := error (state w) |};
         view := view w;
         pending := pending w |}
  | Submit =>
      if returnsAtOnce (view w) then w
      else {| state := beginSearch (state w);
              view := view w;
              pending := pending w ++ [profession (view w)] |}
  | Settle i o =>
      match nth_error (pending w) i with
      | Some _ =>
          {| state := finishSearch (state w) o;
             view := view w;
             pending := firstn i (pending w) ++ skipn (S i) (pending w) |}
      | None => w
      end
  | Dismiss =>
      if isError (status (view w))
      then {| state := {| profession := profession (state w);
                          status := IDLE;
                          report := report (state w);
                          error := error (state w) |};
              view := view w;
              pending := pending w |}
      else w
  | Unload =>
      {| state := handleUnload (state w);
         view := view w;
         pending := pending w |}
  | Render =>
      {| state := state w; view := state w; pending := pending w |}
  end.

Definition run (events : list Event) : World :=
  fold_left step events {| state := initial; view := initial; pending := [] |}.

(** The events with a render after each of them. *)
Definition renderedAfterEach (events : list Event) : list Event :=
  flat_map (fun e => [e; Render]) events.

(** [s.replace(/\s+/g, by)]: every maximal run of white space becomes [by]. *)
Fixpoint replaceRuns (p : ascii -> bool) (by_ : str) (inRun : bool) (s : str)
  : str :=
  match s with
  | [] => []
  | c :: s' =>
      if p c then
        if inRun then replaceRuns p by_ true s'
        else by_ ++ replaceRuns p by_ true s'
      else c :: replaceRuns p by_ false s'
  end.

Inductive Format : Type := csv | txt | json | pdf.

Definition extension (f : Format) : str :=
  match f with
  | pdf => lit ".pdf"
  | csv => lit ".csv"
  | txt => lit ".txt"
  | json => lit ".json"
  end.

(** The name of the file that [exportData] saves. *)
Definition exportName (profession : str) (f : Format) : str :=
  lit "Market_Report_" ++ replaceRuns isSpace (lit "_") false profession
  ++ extension f.

(** [source.title.length > 25 ? source.title.substring(0, 25) + '...' : source.title] *)
Definition sourceLabel (s : Source) : str :=
  if (25 <? List.length (title s))%nat
  then firstn 25 (title s) ++ lit "..."
  else title s.

(** [Math.round(x)] *)
Definition round (x : Q) : Z := Qfloor (x + (1 # 2)).

(** What the panel of the average shows. *)
Inductive Shown : Type :=
| NotANumber
| Rounded (a : Z)
| Beyond.

(** [Math.round(topKeywords.reduce((acc, k) => acc + k.volume, 0) / topKeywords.length)].
    Without keywords the quotient is zero by zero, NaN.  The sum and the
    quotient are those of the exact numbers as long as no volume is
    negative and the sum and the length together stay below 2^52, where
    the doubles of the component add without rounding and round the
    quotient to the same integer; beyond that the embedding does not say
    what is shown. *)
Definition averageVolume (topKeywords : list TrendData) : Shown :=
  let total := fold_left (fun acc k => acc + volume k) topKeywords 0 in
  let len := Z.of_nat (List.length topKeywords) in
  match topKeywords with
  | [] => NotANumber
  | _ =>
      if forallb (fun k => 0 <=? volume k) topKeywords
         && (total + len <? 2 ^ 52)
      then Rounded (round (inject_Z total / inject_Z len))
      else Beyond
  end.

(** [report.topKeywords.slice(0, 15)], the data of the bar chart. *)
Definition chartData (r : MarketReport) : list TrendData :=
  firstn 15 (topKeywords r).

End App.

(* ================================================================== *)
(** * The words of the specification, where they are compared with the code *)
(* ================================================================== *)

Module Specification.

(** "Inject a small fixed set of generic keyword terms, skipping any term
    already present, until the minimum count is met": a term is injected
    only while the list is still below the minimum. *)
Definition injectUntil (minimum : nat) (keywordList : list TrendData)
    (w : str) : list TrendData :=
  if (minimum <=? List.length keywordList)%nat
  then keywordList
  else LenientVariant.inject keywordList w.

Definition curatedFallbackUntil (keywordList : list TrendData)
  : list TrendData :=
  fold_left (injectUntil 5) LenientVariant.fallbackWords keywordList.

End Specification.

(* ================================================================== *)
(** * Predicates of the statements *)
(* ================================================================== *)

(** Non-increasing by volume. *)
Definition sortedDesc (l : list TrendData) : Prop :=
  StronglySorted (fun a b => volume b <= volume a) l.

Definition hasVolume (v : Z) (d : TrendData) : bool := volume d =? v.

(** [out] keeps, for every volume, the records of [l] with that volume in
    the order they have in [l], from the first one on. *)
Definition keepsOrderOf (l out : list TrendData) : Prop :=
  forall v, exists rest,
    filter (hasVolume v) l = filter (hasVolume v) out ++ rest.

(** A record of the line re-scan. *)
Definition looseRecord (d : TrendData) : Prop :=
  trend d = stable /\ relevanceScore d = 50
  /\ changePercentage d = Fin 0 /\ 1000 <= volume d < 11000.


(** A record of the curated fallback. *)
Definition curatedRecord (d : TrendData) : Prop :=
  In (keyword d) LenientVariant.fallbackWords
  /\ d = LenientVariant.curated (keyword d).

(** The callback body [body] never throws, and what it accepts for [x]
    satisfies [P x]. *)
Definition accepts {A : Type} (body : nat -> A -> M (option TrendData))
    (P : A -> TrendData -> Prop) : Prop :=
  forall count x n,
    match body count x n with
    | Ret (Some d) _ => P x d
    | Ret None _ => True
    | Raise _ => False
    end.

(** The term of a record is longer than one code unit. *)
Definition properTerm (d : TrendData) : Prop :=
  (1 < List.length (keyword d))%nat.

(** The term of a record holds none of the header words [term] and
    [keyword], in any case. *)
Definition headerFree (d : TrendData) : Prop :=
  includes (toLowerCase (keyword d)) (lit "term") = false
  /\ includes (toLowerCase (keyword d)) (lit "keyword") = false.

(** The first segment of a line split on dash or pipe, trimmed and with its
    numbering removed: the term the line re-scan gives to a line. *)
Definition looseTerm (line : str) : str :=
  stripNumbering isDotOrParen (trim (hd [] (splitOn isDashOrPipe line))).

(** Is [w] the term of a record of the list?  ([keywordList.find(k => k.keyword === w)]) *)
Definition present (keywordList : list TrendData) (w : str) : bool :=
  existsb (fun k => str_eqb (keyword k) w) keywordList.

(** The fallback words that the list does not hold, in their order. *)
Definition missingWords (keywordList : list TrendData) : list str :=
  filter (fun w => negb (present keywordList w)) LenientVariant.fallbackWords.

(* ================================================================== *)
(** * Inputs of the examples *)
(* ================================================================== *)

(** A random source that always draws one half. *)
Definition half : nat -> Q := fun _ => (1 # 2)%Q.

Definition newline : str := ["010"%char].

Definition row (k : string) (v : Z) : TrendData :=
  {| keyword := lit k; volume := v; trend := up;
     changePercentage := Fin 0; relevanceScore := 80 |}.

Definition fourRows : list TrendData :=
  [ row "Sourdough starters" 45000; row "Gluten-free pastries" 22000;
    row "Rye bread" 9000; row "Bagels" 7000 ].

Definition fiftyRows : list TrendData := repeat (row "Bagels" 7000) 50.

(** A reply in prose: a summary, no data marker, no pipe. *)
Definition proseText : str :=
  lit "SUMMARY: Demand grew 12.5% in 2024-2025.".

(** A table of one row. *)
Definition oneRowText : str :=
  lit "DATA_TABLE:" ++ newline ++ lit "Sourdough | 45000 | Up | 25".

(** A table of one row under the header line that the prompt shows. *)
Definition headedTable : str :=
  lit "DATA_TABLE:" ++ newline
  ++ lit "Term | Volume | Trend | YoY Change" ++ newline
  ++ lit "Sourdough | 45000 | Up | 25".

(* ================================================================== *)
(** * Further predicates and inputs *)
(* ================================================================== *)

(** The head of a text, when it has one, is outside the class [p]. *)
Definition headOutside (p : ascii -> bool) (s : str) : Prop :=
  match s with
  | [] => True
  | c :: _ => p c = false
  end.

(** [pieces.join(sep)] for a separator of one code unit. *)
Fixpoint joinWith (sep : ascii) (pieces : list str) : str :=
  match pieces with
  | [] => []
  | [w] => w
  | w :: ws => w ++ sep :: joinWith sep ws
  end.

(** The relevance scores 100, 99, 98, ... of [n] rows, from the row with
    index [from] on. *)
Definition countdown (from n : nat) : list Z :=
  map (fun i => 100 - Z.of_nat i) (seq from n).

(** A record of the generic lines. *)
Definition genericRecord (d : TrendData) : Prop :=
  (2 < List.length (keyword d) < 50)%nat
  /\ includes (toLowerCase (keyword d)) (lit "summary") = false
  /\ trend d = stable /\ relevanceScore d = 50 /\ changePercentage d = Fin 0.

(** The error carries a message that is not empty. *)
Definition hasMessage (e : Exn) : Prop :=
  exists m, e = Error (Some m) /\ truthy m = true.

(** What holds of the component after any events: in the [LOADING] state an
    analysis is under way, every analysis under way was started for a
    profession that is not blank, and the [ERROR] state has a message to
    show. *)
Definition wellFormed (w : App.World) : Prop :=
  (App.isLoading (App.status (App.state w)) = true -> App.pending w <> [])
  /\ Forall (fun p => truthy (trim p) = true) (App.pending w)
  /\ match App.status (App.state w) with
     | App.ERROR => exists m, App.error (App.state w) = Some m /\ truthy m = true
     | _ => True
     end.

(** The handlers see the cells as they are, and an analysis is under way
    exactly in the [LOADING] state, one at most. *)
Definition oneAtATime (w : App.World) : Prop :=
  App.view w = App.state w
  /\ (List.length (App.pending w) <= 1)%nat
  /\ (App.isLoading (App.status (App.state w)) = true <-> App.pending w <> []).

(** A report is at hand in the [RESULTS] state. *)
Definition resultsShown (w : App.World) : Prop :=
  match App.status (App.state w) with
  | App.RESULTS => App.report (App.state w) <> None
  | _ => True
  end.

Definition isUnload (e : App.Event) : bool :=
  match e with
  | App.Unload => true
  | _ => false
  end.

(** A report of one keyword. *)
Definition sampleReport : MarketReport :=
  {| profession := lit "Baker";
     summary := lit "Demand is steady.";
     topKeywords := [row "Sourdough" 45000];
     sources := [];
     generatedAt := lit "today" |}.

(** A search that fails and is dismissed, then one that succeeds. *)
Definition searchTwice : list App.Event :=
  [ App.Change (lit "Baker"); App.Render; App.Submit; App.Render;
    App.Settle 0 (Failure (Error None)); App.Render; App.Dismiss; App.Render;
    App.Submit; App.Render; App.Settle 0 (Success sampleReport) ].

(** Two submits that the same render handles. *)
Definition doubleSubmit : list App.Event :=
  [ App.Change (lit "Baker"); App.Render; App.Submit; App.Submit ].

(** ** The tiers of the [DATA_TABLE:] revision as functions of the text *)

(** The lines that the table parser reads. *)
Definition tableLines (text : str) : list str :=
  match TableVariant.tablePart text with
  | Some (c :: t) => splitOn isNewline (trim (c :: t))
  | _ => []
  end.

(** The term of a table line: its first segment, trimmed and without its
    numbering. *)
Definition rowTerm (line : str) : str :=
  stripNumbering isDotOrParen (trim (hd [] (splitOn isPipe line))).

(** The lines that the row parser accepts: two pipes at least, and a term
    of more than one code unit that holds neither [term] nor [keyword]. *)
Definition rowAccepted (line : str) : bool :=
  (2 <=? countChar isPipe line)%nat
  && truthy (rowTerm line) && (1 <? List.length (rowTerm line))%nat
  && negb (includes (toLowerCase (rowTerm line)) (lit "term"))
  && negb (includes (toLowerCase (rowTerm line)) (lit "keyword")).

(** The lines that the re-scan accepts: split on dash or pipe they have two
    segments at least, the first one, trimmed, has 3 to 49 code units, and
    the term holds neither [summary] nor [data]. *)
Definition looseAccepted (line : str) : bool :=
  let first := trim (hd [] (splitOn isDashOrPipe line)) in
  (2 <=? List.length (splitOn isDashOrPipe line))%nat
  && (2 <? List.length first)%nat && (List.length first <? 50)%nat
  && negb (includes (toLowerCase (looseTerm line)) (lit "summary"))
  && negb (includes (toLowerCase (looseTerm line)) (lit "data")).

(** The record of the re-scan for an accepted line, when [n] draws have been
    made. *)
Definition looseRecordAt (rnd : nat -> Q) (line : str) (n : nat) : TrendData :=
  {| keyword := looseTerm line;
     volume := Qfloor (rnd n * inject_Z 10000) + 1000;
     trend := stable;
     changePercentage := Fin 0;
     relevanceScore := 50 |}.

(** The records of the re-scan of some lines: one for each accepted line, in
    the order of the lines, each with the next draw. *)
Fixpoint looseRecords (rnd : nat -> Q) (lines : list str) (n : nat)
  : list TrendData :=
  match lines with
  | [] => []
  | line :: rest =>
      if looseAccepted line
      then looseRecordAt rnd line n :: looseRecords rnd rest (S n)
      else looseRecords rnd rest n
  end.

(** A reply with one row in its table, among prose. *)
Definition rowAmongProse : str :=
  lit "SUMMARY: Demand is steady." ++ newline
  ++ lit "DATA_TABLE:" ++ newline
  ++ lit "Sourdough | 45000 | Up | 25" ++ newline
  ++ lit "Thanks for reading".

(** A reply that stops before [KEYWORDS_END]. *)
Definition unclosedText : str :=
  lit "KEYWORDS_START" ++ newline ++ lit "Sourdough|45000|Up|25".

(** Two grounding chunks, one without [web] and one without a uri. *)
Definition twoChunks : list Chunk :=
  [ mkChunk None; mkChunk (Some (Some (lit "Bakery trends"), None)) ].

(* ================================================================== *)
(** * Lemmas on the JavaScript primitives *)
(* ================================================================== *)

Section Primitives.

Lemma splitOn_nonempty (p : ascii -> bool) (s : str) : splitOn p s <> [].
Proof.
  destruct s as [|c s]; simpl; [discriminate|].
  destruct (p c); [discriminate|].
  destruct (splitOn p s); discriminate.
Qed.



Lemma removeAll_keeps (p : ascii -> bool) (s : str) :
  Forall (fun c => p c = false) (removeAll p s).
Proof.
  unfold removeAll. apply Forall_forall. intros c Hc.
  apply filter_In in Hc as [_ Hc]. now apply negb_true_iff in Hc.
Qed.


Lemma isSpace_blank : isSpace " " = true.
Proof. reflexivity. Qed.

Lemma digit_not_space (c : ascii) : isDigit c = true -> isSpace c = false.
Proof.
  destruct c as [[] [] [] [] [] [] [] []]; intros H; try reflexivity; discriminate H.
Qed.

Lemma digit_not (c x : ascii) : isDigit c = true -> isDigit x = false ->
  Ascii.eqb c x = false.
Proof.
  intros Hc Hx. destruct (Ascii.eqb_spec c x); [congruence | reflexivity].
Qed.

Lemma digitValue_nonneg (c : ascii) : isDigit c = true -> 0 <= digitValue c.
Proof.
  unfold isDigit, digitValue. intros H. apply andb_prop in H as [H _].
  apply N.leb_le in H. lia.
Qed.

Lemma decimalValue_nonneg (ds : str) :
  Forall (fun c => isDigit c = true) ds -> 0 <= decimalValue ds.
Proof.
  unfold decimalValue.
  assert (G : forall acc, 0 <= acc ->
            Forall (fun c => isDigit c = true) ds ->
            0 <= fold_left (fun a c => 10 * a + digitValue c) ds acc).
  { induction ds as [|c ds IH]; intros acc Ha F; cbn [fold_left]; [exact Ha|].
    inversion F; subst. apply IH; [|assumption].
    pose proof (@digitValue_nonneg c H1). lia. }
  apply G. lia.
Qed.

Lemma takeWhile_all (p : ascii -> bool) (s : str) :
  Forall (fun c => p c = true) s -> takeWhile p s = s.
Proof.
  induction 1 as [|c s Hc _ IH]; simpl; [reflexivity|]. now rewrite Hc, IH.
Qed.

(** [parseInt] of a run of digits is not negative. *)
Lemma parseInt_digits_nonneg (s : str) (v : Z) :
  Forall (fun c => isDigit c = true) s -> parseInt s = Some v -> 0 <= v.
Proof.
  intros F. unfold parseInt, trimStart.
  destruct F as [|c0 s H0 F]; [discriminate|].
  simpl dropWhile. rewrite (digit_not_space c0 H0).
  unfold takeSign.
  rewrite (@digit_not c0 "-"%char H0 eq_refl), (@digit_not c0 "+"%char H0 eq_refl).
  assert (Hx : hexPrefix (c0 :: s) = None).
  { unfold hexPrefix. destruct F as [|c1 s H1 F]; [reflexivity|].
    rewrite (@digit_not c1 "x"%char H1 eq_refl), (@digit_not c1 "X"%char H1 eq_refl).
    now rewrite andb_false_r. }
  rewrite Hx, (@takeWhile_all isDigit (c0 :: s)); [|now constructor].
  intros E. injection E as <-.
  pose proof (@decimalValue_nonneg (c0 :: s) ltac:(now constructor)).
  now destruct (decimalValue (c0 :: s)).
Qed.

Lemma removeAll_notDigit (s : str) :
  Forall (fun c => isDigit c = true) (removeAll notDigit s).
Proof.
  eapply Forall_impl; [|apply removeAll_keeps].
  intros c H. unfold notDigit in H. now apply negb_false_iff in H.
Qed.






End Primitives.

(* ================================================================== *)
(** * Lemmas on the monad and on [forEach] *)
(* ================================================================== *)

Section Loops.

Variable A : Type.
Variable body : nat -> A -> M (option TrendData).

Lemma forEach_pushing (P : A -> TrendData -> Prop) :
  accepts body P ->
  forall xs keywordList n,
  exists added n',
    forEach (pushing body) xs keywordList n = Ret (keywordList ++ added) n'
    /\ Forall (fun d => exists x, In x xs /\ P x d) added
    /\ (List.length added <= List.length xs)%nat.
Proof.
  intros Hb. induction xs as [|x xs IH]; intros kl n.
  - exists [], n. simpl. unfold ret. rewrite app_nil_r. auto.
  - simpl. unfold bind, pushing at 1, bind.
    specialize (Hb (List.length kl) x n).
    destruct (body (List.length kl) x n) as [[d|] n1|e]; [| |contradiction].
    + unfold ret. destruct (IH (kl ++ [d]) n1) as (added & n' & E & F & L).
      exists (d :: added), n'. rewrite E, <- app_assoc. simpl.
      split; [reflexivity|]. split; [|lia].
      constructor; [exists x; simpl; auto|].
      eapply Forall_impl; [|exact F].
      intros a (y & Hy & Py). exists y. simpl. auto.
    + unfold ret. destruct (IH kl n1) as (added & n' & E & F & L).
      exists added, n'. split; [exact E|]. split; [|simpl; lia].
      eapply Forall_impl; [|exact F].
      intros a (y & Hy & Py). exists y. simpl. auto.
Qed.

End Loops.

Lemma randomInt_range (rnd : nat -> Q) (range offset : Z) (n : nat) :
  unitInterval rnd -> 0 < range ->
  offset <= Qfloor (rnd n * inject_Z range) + offset < offset + range.
Proof.
  intros Hr Hpos.
  destruct (Hr n) as [H0 H1].
  assert (Hq : (0 < inject_Z range)%Q).
  { change (inject_Z 0 < inject_Z range)%Q. rewrite <- Zlt_Qlt. exact Hpos. }
  assert (Hlo : (0 <= rnd n * inject_Z range)%Q).
  { apply Qmult_le_0_compat; [exact H0 | apply Qlt_le_weak; exact Hq]. }
  assert (Hhi : (rnd n * inject_Z range < inject_Z range)%Q).
  { setoid_replace (inject_Z range) with (1 * inject_Z range)%Q at 2 by ring.
    apply Qmult_lt_compat_r; assumption. }
  assert (F0 : 0 <= Qfloor (rnd n * inject_Z range)).
  { change 0 with (Qfloor 0). apply Qfloor_resp_le. exact Hlo. }
  assert (F1 : Qfloor (rnd n * inject_Z range) < range).
  { rewrite Zlt_Qlt. eapply Qle_lt_trans; [apply Qfloor_le | exact Hhi]. }
  lia.
Qed.

Lemma half_unitInterval : unitInterval half.
Proof. intros i. split; [apply Qle_bool_iff | apply Qlt_alt]; reflexivity. Qed.

(* ================================================================== *)
(** * The report assembler *)
(* ================================================================== *)

Section Assembler.

Lemma insert_length (x : TrendData) (l : list TrendData) :
  List.length (insert byVolumeDesc x l) = S (List.length l).
Proof.
  induction l as [|y l IH]; simpl; [reflexivity|].
  destruct (byVolumeDesc x y <=? 0); simpl; [reflexivity | now rewrite IH].
Qed.

Lemma sort_cons (x : TrendData) (l : list TrendData) :
  sort byVolumeDesc (x :: l) = insert byVolumeDesc x (sort byVolumeDesc l).
Proof. reflexivity. Qed.

Lemma sort_length (l : list TrendData) :
  List.length (sort byVolumeDesc l) = List.length l.
Proof.
  induction l as [|x l IH]; [reflexivity|].
  rewrite sort_cons, insert_length, IH. reflexivity.
Qed.

Lemma insert_perm (x : TrendData) (l : list TrendData) :
  Permutation (x :: l) (insert byVolumeDesc x l).
Proof.
  induction l as [|y l IH]; simpl; [apply Permutation_refl|].
  destruct (byVolumeDesc x y <=? 0); [apply Permutation_refl|].
  eapply perm_trans; [apply perm_swap | apply perm_skip, IH].
Qed.

Lemma sort_perm (l : list TrendData) : Permutation l (sort byVolumeDesc l).
Proof.
  induction l as [|x l IH]; [constructor|].
  rewrite sort_cons.
  eapply perm_trans; [apply perm_skip, IH | apply insert_perm].
Qed.

Lemma insert_In (x y : TrendData) (l : list TrendData) :
  In y (insert byVolumeDesc x l) -> y = x \/ In y l.
Proof.
  intros H. apply (Permutation_in _ (Permutation_sym (insert_perm x l))) in H.
  destruct H; auto.
Qed.

Lemma insert_sorted (x : TrendData) (l : list TrendData) :
  sortedDesc l -> sortedDesc (insert byVolumeDesc x l).
Proof.
  unfold sortedDesc. induction 1 as [|y l Hs IH Hy]; simpl.
  - repeat constructor.
  - unfold byVolumeDesc at 1. destruct (Z.leb_spec (volume y - volume x) 0).
    + constructor; [constructor; assumption|].
      constructor; [lia|].
      eapply Forall_impl; [|exact Hy]. simpl. intros; lia.
    + constructor; [exact IH|].
      apply Forall_forall. intros z Hz.
      apply insert_In in Hz as [->|Hz]; [lia|].
      rewrite Forall_forall in Hy. now apply Hy.
Qed.

Lemma sort_sorted (l : list TrendData) : sortedDesc (sort byVolumeDesc l).
Proof.
  induction l as [|x l IH]; [constructor|].
  rewrite sort_cons. now apply insert_sorted.
Qed.

(** Insertion leaves the records of one volume in place and puts the new
    one in front of those of its own volume. *)
Lemma insert_filter (v : Z) (x : TrendData) (l : list TrendData) :
  filter (hasVolume v) (insert byVolumeDesc x l)
  = filter (hasVolume v) (x :: l).
Proof.
  induction l as [|y l IH]; [reflexivity|].
  simpl insert. unfold byVolumeDesc at 1.
  destruct (Z.leb_spec (volume y - volume x) 0); [reflexivity|].
  simpl in *. rewrite IH. unfold hasVolume.
  destruct (Z.eqb_spec (volume x) v), (Z.eqb_spec (volume y) v);
    try reflexivity; lia.
Qed.

Lemma sort_stable (v : Z) (l : list TrendData) :
  filter (hasVolume v) (sort byVolumeDesc l) = filter (hasVolume v) l.
Proof.
  induction l as [|x l IH]; [reflexivity|].
  rewrite sort_cons, insert_filter. simpl. now rewrite IH.
Qed.

Lemma sortedDesc_firstn (n : nat) (l : list TrendData) :
  sortedDesc l -> sortedDesc (firstn n l).
Proof.
  unfold sortedDesc. intros H. revert n.
  induction H as [|y l Hs IH Hy]; intros [|n]; simpl; try constructor.
  - apply IH.
  - apply Forall_forall. intros z Hz. rewrite Forall_forall in Hy.
    apply Hy. rewrite <- (firstn_skipn n l). apply in_or_app. now left.
Qed.

Lemma assemble_length (l : list TrendData) :
  List.length (assemble l) = Nat.min 50 (List.length l).
Proof. unfold assemble. now rewrite length_firstn, sort_length. Qed.

Lemma assemble_nonempty (l : list TrendData) : l <> [] -> assemble l <> [].
Proof.
  intros H E. apply (f_equal (@List.length _)) in E.
  rewrite assemble_length in E. destruct l; [congruence | simpl in E; lia].
Qed.

Lemma assemble_keepsOrder (l : list TrendData) : keepsOrderOf l (assemble l).
Proof.
  intros v. exists (filter (hasVolume v) (skipn 50 (sort byVolumeDesc l))).
  unfold assemble. rewrite <- filter_app, firstn_skipn. symmetry. apply sort_stable.
Qed.

End Assembler.

(** C1. For every candidate list, the keyword sequence of the assembled
    report ([keywordList.sort(...).slice(0, 50)]) is sorted non-increasing
    by volume; the sort is stable (the records of any one volume stand in
    the sorted list exactly as in the input, and the report keeps the first
    of them in that order); the sequence has at most 50 records, and exactly
    50 when the candidate list holds at least 50.  The keywords of a report
    of the [DATA_TABLE:] revision and of the lenient revision are assembled
    in this way from the list their tiers produce. *)
Theorem assemble_sorted_stable_bounded (keywordList : list TrendData) :
  sortedDesc (assemble keywordList)
  /\ (forall v, filter (hasVolume v) (sort byVolumeDesc keywordList)
                = filter (hasVolume v) keywordList)
  /\ keepsOrderOf keywordList (assemble keywordList)
  /\ (List.length (assemble keywordList) <= 50)%nat
  /\ ((50 <= List.length keywordList)%nat ->
      List.length (assemble keywordList) = 50%nat)
  /\ (forall rnd profession now text chunks n,
        match TableVariant.analyse rnd profession now text chunks n with
        | Ret report _ =>
            exists candidates n',
              TableVariant.extract rnd (orDefault text []) n = Ret candidates n'
              /\ topKeywords report = assemble candidates
        | Raise _ => True
        end)
  /\ (forall rnd profession now text chunks n,
        match LenientVariant.analyse rnd profession now text chunks n with
        | Ret report _ =>
            exists candidates n',
              LenientVariant.extract rnd (orDefault text []) n = Ret candidates n'
              /\ topKeywords report = assemble candidates
        | Raise _ => True
        end).
Proof.
  split; [apply sortedDesc_firstn, sort_sorted|].
  split; [intros v; apply sort_stable|].
  split; [apply assemble_keepsOrder|].
  rewrite assemble_length. split; [lia|]. split; [intros H; lia|].
  split; intros rnd profession now text chunks n.
  - unfold TableVariant.analyse.
    destruct (orDefault text []) as [|c t]; [exact I|]. unfold bind.
    destruct (TableVariant.extract rnd (c :: t) n) as [kl n'|e]; [|exact I].
    exists kl, n'. split; reflexivity.
  - unfold LenientVariant.analyse, bind.
    destruct (LenientVariant.extract rnd (orDefault text []) n) as [kl n'|e];
      [|exact I].
    exists kl, n'. split; reflexivity.
Qed.

Lemma assemble_sorted_stable_bounded_witness :
  (50 <= List.length fiftyRows)%nat
  /\ List.length (assemble fiftyRows) = 50%nat.
Proof.
  split.
  - apply Nat.leb_le. reflexivity.
  - apply (proj1 (proj2 (proj2 (proj2 (proj2 (assemble_sorted_stable_bounded fiftyRows)))))).
    apply Nat.leb_le. reflexivity.
Defined.

(* ================================================================== *)
(** * The [DATA_TABLE:] revision *)
(* ================================================================== *)

Section TableFacts.

Variable rnd : nat -> Q.

Lemma table_parseRow_cases (count : nat) (line : str) (n : nat) :
  TableVariant.parseRow rnd count line n = Ret None n
  \/ exists d n',
       TableVariant.parseRow rnd count line n = Ret (Some d) n'
       /\ properTerm d /\ headerFree d
       /\ relevanceScore d = 100 - Z.of_nat count
       /\ (unitInterval rnd -> 0 < volume d).
Proof.
  unfold TableVariant.parseRow.
  destruct (2 <=? countChar isPipe line)%nat; [|now left].
  destruct (map trim (splitOn isPipe line)) as [|p0 [|p1 [|p2 rest]]];
    try (now left).
  cbn [List.length Nat.leb nth_error member bind ret].
  set (kw := stripNumbering isDotOrParen p0).
  destruct (truthy kw && (1 <? List.length kw)%nat
            && negb (includes (toLowerCase kw) (lit "term"))
            && negb (includes (toLowerCase kw) (lit "keyword"))) eqn:E;
    [|now left].
  apply andb_prop in E as [E E3]. apply andb_prop in E as [E E2].
  apply andb_prop in E as [_ E1].
  apply Nat.ltb_lt in E1. apply negb_true_iff in E2, E3.
  right. set (vol := orZeroZ _).
  destruct (Z.ltb_spec 0 vol) as [Hv|Hv].
  - eexists _, n. unfold bind, ret. split; [reflexivity|].
    unfold properTerm, headerFree; simpl. auto.
  - unfold bind, ret, randomInt. eexists _, (S n). split; [reflexivity|].
    unfold properTerm, headerFree; cbn [keyword relevanceScore volume].
    do 3 (split; [auto|]).
    intros Hr. pose proof (randomInt_range 500 n Hr (range := 15000)). lia.
Qed.

Lemma table_looseRow_cases (count : nat) (line : str) (n : nat) :
  TableVariant.looseRow rnd count line n = Ret None n
  \/ exists d,
       TableVariant.looseRow rnd count line n = Ret (Some d) (S n)
       /\ keyword d = looseTerm line
       /\ trend d = stable /\ relevanceScore d = 50
       /\ changePercentage d = Fin 0
       /\ (unitInterval rnd -> 1000 <= volume d < 11000).
Proof.
  unfold TableVariant.looseRow, looseTerm.
  destruct (splitOn isDashOrPipe line) as [|s0 [|s1 rest]]; try (now left).
  cbn [map List.length Nat.leb nth_error member bind ret hd].
  destruct ((2 <? List.length (trim s0))%nat && (List.length (trim s0) <? 50)%nat);
    [|now left].
  destruct (negb _ && negb _); [|now left].
  right. unfold bind, ret, randomInt. eexists. split; [reflexivity|].
  cbn [keyword trend relevanceScore changePercentage volume].
  do 4 (split; [reflexivity|]).
  intros Hr. pose proof (randomInt_range 1000 n Hr (range := 10000)). lia.
Qed.


Lemma table_parseRow_accepts :
  accepts (TableVariant.parseRow rnd)
    (fun _ d => properTerm d /\ headerFree d
                /\ (unitInterval rnd -> 0 < volume d)).
Proof.
  intros count line n.
  destruct (table_parseRow_cases count line n) as [E|(d & n' & E & H1 & H2 & _ & H3)];
    rewrite E; auto.
Qed.

Lemma table_looseRow_accepts :
  accepts (TableVariant.looseRow rnd)
    (fun line d => keyword d = looseTerm line
                   /\ (unitInterval rnd -> looseRecord d)).
Proof.
  intros count line n.
  destruct (table_looseRow_cases count line n) as [E|(d & E & H1 & H2 & H3 & H4 & H5)];
    rewrite E; [exact I|].
  unfold looseRecord. split; [exact H1|]. intros Hr. auto.
Qed.

Lemma table_parseTable_total (text : str) (n : nat) :
  exists keywordList n',
    TableVariant.parseTable rnd text n = Ret keywordList n'
    /\ Forall (fun d => properTerm d /\ headerFree d
                        /\ (unitInterval rnd -> 0 < volume d)) keywordList.
Proof.
  unfold TableVariant.parseTable.
  destruct (TableVariant.tablePart text) as [[|c t]|];
    try (exists [], n; split; [reflexivity | constructor]).
  destruct (forEach_pushing table_parseRow_accepts
              (splitOn isNewline (trim (c :: t))) [] n)
    as (added & n' & E & F & _).
  exists added, n'. split; [exact E|].
  eapply Forall_impl; [|exact F]. intros d (_ & _ & H). exact H.
Qed.

Lemma table_rescan_total (text : str) (keywordList : list TrendData) (n : nat) :
  exists added n',
    TableVariant.rescan rnd text keywordList n = Ret (keywordList ++ added) n'
    /\ Forall (fun d => (exists line, In line (splitOn isNewline text)
                                      /\ keyword d = looseTerm line)
                        /\ (unitInterval rnd -> looseRecord d)) added
    /\ ((5 <= List.length keywordList)%nat /\ added = []
        \/ (List.length keywordList < 5)%nat
           /\ TableVariant.rescan rnd text keywordList n
              = forEach (pushing (TableVariant.looseRow rnd))
                  (splitOn isNewline text) keywordList n).
Proof.
  unfold TableVariant.rescan.
  destruct (Nat.ltb_spec (List.length keywordList) 5) as [H|H].
  - destruct (forEach_pushing table_looseRow_accepts
                (splitOn isNewline text) keywordList n)
      as (added & n' & E & F & _).
    exists added, n'. split; [exact E|]. split; [|right; auto].
    eapply Forall_impl; [|exact F]. intros d (line & Hl & Hk & Hd). eauto.
  - exists [], n. rewrite app_nil_r. split; [reflexivity|].
    split; [constructor | left; auto].
Qed.

End TableFacts.

Lemma table_handler_extraction :
  TableVariant.handler (Error (Some TableVariant.extractionMessage))
  = Error (Some TableVariant.extractionMessage).
Proof. vm_compute. reflexivity. Qed.

Lemma table_handler_empty :
  TableVariant.handler (Error (Some TableVariant.emptyResponseMessage))
  = Error (Some TableVariant.emptyResponseMessage).
Proof. vm_compute. reflexivity. Qed.

Lemma table_extract_cases (rnd : nat -> Q) (text : str) (n : nat) :
  exists kl0 n0 added n1,
    TableVariant.parseTable rnd text n = Ret kl0 n0
    /\ TableVariant.rescan rnd text kl0 n0 = Ret (kl0 ++ added) n1
    /\ match kl0 ++ added with
       | [] => TableVariant.extract rnd text n
               = Raise (Error (Some TableVariant.extractionMessage))
       | _ :: _ => TableVariant.extract rnd text n = Ret (kl0 ++ added) n1
       end.
Proof.
  destruct (table_parseTable_total rnd text n) as (kl0 & n0 & E0 & _).
  destruct (table_rescan_total rnd text kl0 n0) as (added & n1 & E1 & _).
  exists kl0, n0, added, n1. split; [exact E0|]. split; [exact E1|].
  unfold TableVariant.extract, bind. rewrite E0, E1.
  destruct (kl0 ++ added); reflexivity.
Qed.

(** C5. The row parser is total: on every line it returns, either a
    record or a rejection, and never throws (no member is read from an
    absent segment); the empty line is rejected.  A parse failure stays
    local: without a table marker the table parser returns no row, without
    a summary marker the summary is the placeholder, a rejected line only
    leaves the list as it is.  The one error that the parsing can give to
    the caller is the extraction failure, thrown when the row parser and the
    line re-scan have accepted nothing at all; for a response that arrived,
    the run fails only with the configuration, the empty-response or the
    extraction message. *)
Theorem table_row_parser_total (rnd : nat -> Q) (count : nat) (line text : str)
    (n : nat) :
  (exists r n', TableVariant.parseRow rnd count line n = Ret r n')
  /\ TableVariant.parseRow rnd count [] n = Ret None n
  /\ match TableVariant.tablePart text with
     | None => TableVariant.parseTable rnd text n = Ret [] n
     | Some _ => exists keywordList n',
                   TableVariant.parseTable rnd text n = Ret keywordList n'
     end
  /\ match afterFirst (matchLitI (lit "SUMMARY:")) text with
     | None => TableVariant.extractSummary text = TableVariant.summaryPlaceholder
     | Some _ => True
     end
  /\ match TableVariant.extract rnd text n with
     | Ret keywordList _ => keywordList <> []
     | Raise e =>
         e = Error (Some TableVariant.extractionMessage)
         /\ exists n0 n1,
              TableVariant.parseTable rnd text n = Ret [] n0
              /\ TableVariant.rescan rnd text [] n0 = Ret [] n1
     end
  /\ (forall apiKey profession now response chunks,
        match outcome (TableVariant.getMarketAnalysis rnd apiKey profession now
                         (Resolved response chunks)) with
        | Success report => topKeywords report <> []
        | Failure e =>
            e = Error (Some TableVariant.configurationMessage)
            \/ e = Error (Some TableVariant.emptyResponseMessage)
            \/ e = Error (Some TableVariant.extractionMessage)
        end).
Proof.
  split.
  { destruct (table_parseRow_cases rnd count line n) as [E|(d & n' & E & _)];
      rewrite E; eauto. }
  split; [reflexivity|].
  split.
  { destruct (TableVariant.tablePart text) eqn:E.
    - destruct (table_parseTable_total rnd text n) as (kl & n' & H & _). eauto.
    - unfold TableVariant.parseTable. now rewrite E. }
  split.
  { unfold TableVariant.extractSummary, summaryBetween.
    destruct (afterFirst (matchLitI (lit "SUMMARY:")) text); auto. }
  assert (X : forall text n,
    match TableVariant.extract rnd text n with
     | Ret keywordList _ => keywordList <> []
     | Raise e =>
         e = Error (Some TableVariant.extractionMessage)
         /\ exists n0 n1,
              TableVariant.parseTable rnd text n = Ret [] n0
              /\ TableVariant.rescan rnd text [] n0 = Ret [] n1
     end).
  { clear. intros text n.
    destruct (table_extract_cases rnd text n) as (kl0 & n0 & added & n1 & E0 & E1 & E).
    destruct (kl0 ++ added) eqn:K; rewrite E.
    - split; [reflexivity|]. apply app_eq_nil in K as [-> ->]. eauto.
    - discriminate. }
  split; [apply X|].
  intros apiKey profession now response chunks.
  unfold TableVariant.getMarketAnalysis.
  destruct (keyRejected apiKey); simpl; [auto|].
  unfold TableVariant.analyse.
  destruct (orDefault response []) as [|c t] eqn:T.
  - unfold throw. rewrite table_handler_empty. auto.
  - unfold bind. specialize (X (c :: t) 0%nat).
    destruct (TableVariant.extract rnd (c :: t) 0%nat) as [kl n1|e].
    + unfold ret. simpl. now apply assemble_nonempty.
    + destruct X as [-> _]. rewrite table_handler_extraction. auto.
Qed.

(** C10. The re-scan appends without looking for the terms already in the
    list.  On a table of the one row ["Sourdough | 45000 | Up | 25"] the
    table parser accepts one record, the re-scan reads the same line again
    and appends a second record with the same term, a volume drawn on its
    own and the trend stable; both are in the keywords of the report. *)
Theorem rescan_repeats_term (rnd : nat -> Q) :
  let text := lit "DATA_TABLE:" ++ newline ++ lit "Sourdough | 45000 | Up | 25" in
  let d0 := {| keyword := lit "Sourdough"; volume := 45000; trend := up;
               changePercentage := Fin 25; relevanceScore := 100 |} in
  let d1 := {| keyword := lit "Sourdough";
               volume := Qfloor (rnd 0%nat * inject_Z 10000) + 1000;
               trend := stable;
               changePercentage := Fin 0; relevanceScore := 50 |} in
  TableVariant.parseTable rnd text 0%nat = Ret [d0] 0
  /\ TableVariant.extract rnd text 0%nat = Ret [d0; d1] 1
  /\ keyword d0 = keyword d1
  /\ exists report,
       outcome (TableVariant.getMarketAnalysis rnd (Some (lit "secret-key"))
                  (lit "baker") (lit "today") (Resolved (Some text) None))
       = Success report
       /\ In d0 (topKeywords report) /\ In d1 (topKeywords report)
       /\ List.length (topKeywords report) = 2%nat.
Proof.
  intros text d0 d1.
  split; [vm_compute; reflexivity|].
  split; [vm_compute; reflexivity|].
  split; [reflexivity|].
  exists {| profession := lit "baker";
            summary := TableVariant.summaryPlaceholder;
            topKeywords := assemble [d0; d1];
            sources := [];
            generatedAt := lit "today" |}.
  split; [vm_compute; reflexivity|].
  cbn [topKeywords].
  assert (P : Permutation [d0; d1] (assemble [d0; d1])).
  { unfold assemble. rewrite firstn_all2; [apply sort_perm|].
    rewrite sort_length. simpl. lia. }
  split; [apply (Permutation_in _ P); simpl; auto|].
  split; [apply (Permutation_in _ P); simpl; auto|].
  rewrite assemble_length. reflexivity.
Qed.

(* ================================================================== *)
(** * The [DATA:] revision *)
(* ================================================================== *)

Section DataFacts.

Variable rnd : nat -> Q.

Lemma data_parseRow_cases (count : nat) (line : str) (n : nat) :
  DataVariant.parseRow rnd count line n = Ret None n
  \/ exists d n',
       DataVariant.parseRow rnd count line n = Ret (Some d) n'
       /\ properTerm d
       /\ relevanceScore d = 100 - Z.of_nat count
       /\ (unitInterval rnd -> 0 < volume d).
Proof.
  unfold DataVariant.parseRow.
  destruct (map trim (splitOn isPipe line)) as [|p0 [|p1 [|p2 rest]]];
    try (now left).
  cbn [List.length Nat.leb nth_error member bind ret].
  set (kw := stripNumbering isDot p0).
  destruct (truthy kw && (1 <? List.length kw)%nat) eqn:E; [|now left].
  apply andb_prop in E as [_ E1]. apply Nat.ltb_lt in E1.
  right. set (vol := orZeroZ _).
  destruct (Z.ltb_spec 0 vol) as [Hv|Hv].
  - eexists _, n. unfold bind, ret. split; [reflexivity|].
    unfold properTerm; simpl. auto.
  - unfold bind, ret, randomInt. eexists _, (S n). split; [reflexivity|].
    unfold properTerm; cbn [keyword relevanceScore volume].
    do 2 (split; [auto|]).
    intros Hr. pose proof (randomInt_range 500 n Hr (range := 15000)). lia.
Qed.

Lemma data_parseRow_accepts :
  accepts (DataVariant.parseRow rnd)
    (fun _ d => properTerm d /\ (unitInterval rnd -> 0 < volume d)).
Proof.
  intros count line n.
  destruct (data_parseRow_cases count line n) as [E|(d & n' & E & H1 & _ & H3)];
    rewrite E; auto.
Qed.

Lemma data_parseTable_total (text : str) (n : nat) :
  exists keywordList n',
    DataVariant.parseTable rnd text n = Ret keywordList n'
    /\ Forall (fun d => properTerm d /\ (unitInterval rnd -> 0 < volume d))
         keywordList.
Proof.
  unfold DataVariant.parseTable.
  destruct (DataVariant.keywordSection text) as [|c t];
    [exists [], n; split; [reflexivity | constructor]|].
  destruct (forEach_pushing data_parseRow_accepts
              (splitOn isNewline (trim (c :: t))) [] n)
    as (added & n' & E & F & _).
  exists added, n'. split; [exact E|].
  eapply Forall_impl; [|exact F]. intros d (_ & _ & H). exact H.
Qed.


Lemma forEach_salvaged (words : list str) (keywordList : list TrendData) (n : nat) :
  forEach (pushing (fun _ w => ret (Some (DataVariant.salvaged w))))
    words keywordList n
  = Ret (keywordList ++ map DataVariant.salvaged words) n.
Proof.
  revert keywordList. induction words as [|w ws IH]; intros kl; simpl.
  - unfold ret. now rewrite app_nil_r.
  - unfold bind, pushing at 1, bind, ret. rewrite IH, <- app_assoc. reflexivity.
Qed.




Lemma data_extract_cases (text : str) (n : nat) :
  exists kl0 n0,
    DataVariant.parseTable rnd text n = Ret kl0 n0
    /\ match kl0, DataVariant.salvageWords text with
       | [], [] => DataVariant.extract rnd text n
                   = Raise (Error (Some DataVariant.extractionMessage))
       | [], words => DataVariant.extract rnd text n
                      = Ret (map DataVariant.salvaged words) n0
       | _, _ => DataVariant.extract rnd text n = Ret kl0 n0
       end.
Proof.
  destruct (data_parseTable_total text n) as (kl0 & n0 & E0 & _).
  exists kl0, n0. split; [exact E0|].
  unfold DataVariant.extract, bind. rewrite E0.
  unfold DataVariant.salvage.
  destruct kl0 as [|d kl0]; [|reflexivity].
  cbn [List.length Nat.eqb].
  destruct (DataVariant.salvageWords text) as [|w ws]; [reflexivity|].
  cbn [List.length Nat.ltb Nat.leb]. now rewrite forEach_salvaged.
Qed.

Lemma data_extract_nonempty (text : str) (n : nat) :
  match DataVariant.extract rnd text n with
  | Ret keywordList _ => keywordList <> []
  | Raise e => e = Error (Some DataVariant.extractionMessage)
  end.
Proof.
  destruct (data_extract_cases text n) as (kl0 & n0 & _ & E).
  destruct kl0 as [|d kl0], (DataVariant.salvageWords text) as [|w ws];
    rewrite E; try reflexivity; discriminate.
Qed.

End DataFacts.







(* ================================================================== *)
(** * The row parser on the lines of the specification *)
(* ================================================================== *)

(** C6. On ["Sourdough | 45,000 | Up | 25%"] the row parser produces the
    record with term [Sourdough], volume 45000, trend up and change 25 (the
    thousands separator and the percent sign are removed); on
    ["1. Local Coffee | 12500 | Stable | -3"] it removes the numbering and
    produces the term [Local Coffee] with change -3.  Both hold for the row
    parser of the [DATA_TABLE:] revision and for the one of the [DATA:]
    revision; no random number is drawn. *)
Theorem parseRow_examples (rnd : nat -> Q) (count n : nat) :
  TableVariant.parseRow rnd count (lit "Sourdough | 45,000 | Up | 25%") n
  = Ret (Some {| keyword := lit "Sourdough";
                 volume := 45000;
                 trend := up;
                 changePercentage := Fin 25;
                 relevanceScore := 100 - Z.of_nat count |}) n
  /\ TableVariant.parseRow rnd count (lit "1. Local Coffee | 12500 | Stable | -3") n
     = Ret (Some {| keyword := lit "Local Coffee";
                    volume := 12500;
                    trend := stable;
                    changePercentage := Fin (-3);
                    relevanceScore := 100 - Z.of_nat count |}) n
  /\ DataVariant.parseRow rnd count (lit "Sourdough | 45,000 | Up | 25%") n
     = Ret (Some {| keyword := lit "Sourdough";
                    volume := 45000;
                    trend := up;
                    changePercentage := Fin 25;
                    relevanceScore := 100 - Z.of_nat count |}) n
  /\ DataVariant.parseRow rnd count (lit "1. Local Coffee | 12500 | Stable | -3") n
     = Ret (Some {| keyword := lit "Local Coffee";
                    volume := 12500;
                    trend := stable;
                    changePercentage := Fin (-3);
                    relevanceScore := 100 - Z.of_nat count |}) n.
Proof. repeat split; vm_compute; reflexivity. Qed.


(* ================================================================== *)
(** * The [KEYWORDS_START] revision *)
(* ================================================================== *)

Section CuratedFallback.

Lemma str_eqb_eq (a b : str) : str_eqb a b = true <-> a = b.
Proof.
  unfold str_eqb. destruct (list_eq_dec ascii_dec a b); split; auto; discriminate.
Qed.

Lemma str_eqb_neq (a b : str) : a <> b -> str_eqb a b = false.
Proof.
  intros H. destruct (str_eqb a b) eqn:E; [|reflexivity].
  now apply str_eqb_eq in E.
Qed.

Lemma present_In (keywordList : list TrendData) (w : str) :
  present keywordList w = true <-> In w (map keyword keywordList).
Proof.
  unfold present. rewrite existsb_exists, in_map_iff. split.
  - intros (k & Hk & E). apply str_eqb_eq in E. eauto.
  - intros (k & E & Hk). exists k. split; [exact Hk|]. now apply str_eqb_eq.
Qed.

Lemma present_push (keywordList : list TrendData) (w w' : str) :
  w <> w' ->
  present (keywordList ++ [LenientVariant.curated w]) w' = present keywordList w'.
Proof.
  intros H. unfold present. rewrite existsb_app. simpl.
  rewrite (str_eqb_neq H). now rewrite !orb_false_r.
Qed.

Lemma fold_inject (ws : list str) : NoDup ws ->
  forall keywordList,
    fold_left LenientVariant.inject ws keywordList
    = keywordList
      ++ map LenientVariant.curated
           (filter (fun w => negb (present keywordList w)) ws).
Proof.
  induction 1 as [|w ws Hw Hnd IH]; intros kl; simpl.
  - now rewrite app_nil_r.
  - rewrite IH. unfold LenientVariant.inject. fold (present kl w).
    destruct (present kl w); simpl; [reflexivity|].
    rewrite <- app_assoc. simpl. do 3 f_equal.
    apply filter_ext_in. intros w' Hw'. f_equal. apply present_push.
    intros ->. contradiction.
Qed.

Lemma fallbackWords_NoDup : NoDup LenientVariant.fallbackWords.
Proof.
  unfold LenientVariant.fallbackWords.
  repeat (constructor; [simpl; intros H; repeat (destruct H as [H|H]; [discriminate H|]); exact H|]).
  constructor.
Qed.

Lemma present_words_bound (keywordList : list TrendData) :
  (List.length (filter (present keywordList) LenientVariant.fallbackWords)
   <= List.length keywordList)%nat.
Proof.
  rewrite <- (length_map keyword keywordList).
  apply NoDup_incl_length.
  - apply NoDup_filter, fallbackWords_NoDup.
  - intros w Hw. apply filter_In in Hw as [_ Hw]. now apply present_In.
Qed.

Lemma missingWords_length (keywordList : list TrendData) :
  (List.length (missingWords keywordList)
   + List.length (filter (present keywordList) LenientVariant.fallbackWords)
   = 5)%nat.
Proof.
  unfold missingWords.
  change 5%nat with (List.length LenientVariant.fallbackWords).
  generalize LenientVariant.fallbackWords as ws.
  induction ws as [|w ws IH]; simpl; [reflexivity|].
  destruct (present keywordList w); simpl; lia.
Qed.

End CuratedFallback.

(** C8 (amended). In the lenient revision, when fewer than five
    candidates are present, the fallback appends the curated record (volume
    12000, trend up, change 15, relevance 85) of every fallback word that
    is not yet the term of a candidate, in the order of the list, and of no
    other; it does not stop once five are reached.  Afterwards every
    fallback word is present and the count lies between 5 and 9. *)
Theorem curated_fallback_injects_all_missing (keywordList : list TrendData) :
  (List.length keywordList < 5)%nat ->
  LenientVariant.curatedFallback keywordList
  = keywordList ++ map LenientVariant.curated (missingWords keywordList)
  /\ Forall curatedRecord (map LenientVariant.curated (missingWords keywordList))
  /\ (forall w, In w LenientVariant.fallbackWords ->
                In w (map keyword (LenientVariant.curatedFallback keywordList)))
  /\ (5 <= List.length (LenientVariant.curatedFallback keywordList) <= 9)%nat.
Proof.
  intros Hlt.
  assert (E : LenientVariant.curatedFallback keywordList
              = keywordList ++ map LenientVariant.curated (missingWords keywordList)).
  { unfold LenientVariant.curatedFallback.
    apply Nat.ltb_lt in Hlt. rewrite Hlt.
    apply fold_inject, fallbackWords_NoDup. }
  split; [exact E|].
  split.
  { apply Forall_forall. intros d Hd. apply in_map_iff in Hd as (w & <- & Hw).
    apply filter_In in Hw as [Hw _]. split; [exact Hw | reflexivity]. }
  split.
  { intros w Hw. rewrite E, map_app, map_map. simpl. rewrite map_id.
    apply in_or_app. destruct (present keywordList w) eqn:P.
    - left. now apply present_In.
    - right. apply filter_In. now rewrite P. }
  rewrite E, length_app, length_map.
  pose proof (missingWords_length keywordList).
  pose proof (present_words_bound keywordList). lia.
Qed.

Lemma curated_fallback_injects_all_missing_witness :
  LenientVariant.curatedFallback fourRows
  = fourRows ++ map LenientVariant.curated (missingWords fourRows)
  /\ Forall curatedRecord (map LenientVariant.curated (missingWords fourRows))
  /\ (forall w, In w LenientVariant.fallbackWords ->
                In w (map keyword (LenientVariant.curatedFallback fourRows)))
  /\ (5 <= List.length (LenientVariant.curatedFallback fourRows) <= 9)%nat.
Proof. apply curated_fallback_injects_all_missing. simpl. lia. Defined.

(** C8, as stated, fails: the fallback does not inject "until the minimum
    count of 5 is met".  From four rows it goes on to nine records, where
    injecting until the minimum is met stops at five. *)
Lemma curated_fallback_not_until_minimum :
  ~ (forall keywordList,
       (List.length keywordList < 5)%nat ->
       LenientVariant.curatedFallback keywordList
       = Specification.curatedFallbackUntil keywordList).
Proof.
  intros H. specialize (H fourRows ltac:(simpl; lia)).
  apply (f_equal (@List.length _)) in H. vm_compute in H. discriminate H.
Qed.

Section LenientFacts.

Variable rnd : nat -> Q.

Lemma lenient_parseRow_cases (count : nat) (line : str) (n : nat) :
  LenientVariant.parseRow rnd count line n = Ret None n
  \/ exists d n',
       LenientVariant.parseRow rnd count line n = Ret (Some d) n'
       /\ (unitInterval rnd -> 0 < volume d /\ 70 <= relevanceScore d < 100).
Proof.
  unfold LenientVariant.parseRow.
  destruct (splitOn isPipe line) as [|p0 [|p1 [|p2 rest]]]; try (now left).
  cbn [List.length Nat.leb nth_error member bind ret].
  destruct (negb (includes line (lit "Keyword|Volume"))); [|now left].
  right. cbn [andb List.length Nat.leb nth_error member bind ret].
  unfold LenientVariant.volumeOr.
  pose proof (@parseInt_digits_nonneg (removeAll notDigit p1)) as Hp.
  destruct (parseInt (removeAll notDigit p1)) as [v|].
  - specialize (Hp v (removeAll_notDigit p1) eq_refl).
    destruct (Z.eqb_spec v 0) as [Hv|Hv].
    + unfold bind, ret, randomInt. eexists _, _. split; [reflexivity|].
      cbn [volume relevanceScore]. intros Hr.
      pose proof (randomInt_range 1000 n Hr (range := 50000)).
      pose proof (randomInt_range 70 (S n) Hr (range := 30)). lia.
    + unfold bind, ret, randomInt. eexists _, _. split; [reflexivity|].
      cbn [volume relevanceScore]. intros Hr.
      pose proof (randomInt_range 70 n Hr (range := 30)). lia.
  - unfold bind, ret, randomInt. eexists _, _. split; [reflexivity|].
    cbn [volume relevanceScore]. intros Hr.
    pose proof (randomInt_range 1000 n Hr (range := 50000)).
    pose proof (randomInt_range 70 (S n) Hr (range := 30)). lia.
Qed.

Lemma lenient_parseRow_accepts :
  accepts (LenientVariant.parseRow rnd)
    (fun _ d => unitInterval rnd -> 0 < volume d).
Proof.
  intros count line n.
  destruct (lenient_parseRow_cases count line n) as [E|(d & n' & E & H)];
    rewrite E; [exact I|]. intros Hr. now apply H.
Qed.

Lemma lenient_parseTable_total (text : str) (n : nat) :
  exists keywordList n',
    LenientVariant.parseTable rnd text n = Ret keywordList n'
    /\ Forall (fun d => unitInterval rnd -> 0 < volume d) keywordList.
Proof.
  unfold LenientVariant.parseTable.
  destruct (LenientVariant.keywordBlock text) as [block|];
    [|exists [], n; split; [reflexivity | constructor]].
  destruct (forEach_pushing lenient_parseRow_accepts
              (splitOn isNewline (trim block)) [] n)
    as (added & n' & E & F & _).
  exists added, n'. split; [exact E|].
  eapply Forall_impl; [|exact F]. intros d (_ & _ & H). exact H.
Qed.

End LenientFacts.

Lemma inject_Forall (P : TrendData -> Prop) (ws : list str) :
  (forall w, P (LenientVariant.curated w)) ->
  forall keywordList,
    Forall P keywordList -> Forall P (fold_left LenientVariant.inject ws keywordList).
Proof.
  intros Hc. induction ws as [|w ws IH]; intros kl F; simpl; [exact F|].
  apply IH. unfold LenientVariant.inject.
  destruct (existsb _ kl); [exact F|].
  apply Forall_app. split; [exact F | repeat constructor; apply Hc].
Qed.


(* ================================================================== *)
(** * Across the revisions *)
(* ================================================================== *)

(** X1. With draws in [0, 1), the volume of every record that a tier
    accepts is positive, whatever the tier and the revision. *)
Lemma accepted_volumes_positive (rnd : nat -> Q) (text : str) (n : nat) :
  unitInterval rnd ->
  match TableVariant.extract rnd text n with
  | Ret keywordList _ => Forall (fun d => 0 < volume d) keywordList
  | Raise _ => True
  end
  /\ match DataVariant.extract rnd text n with
     | Ret keywordList _ => Forall (fun d => 0 < volume d) keywordList
     | Raise _ => True
     end
  /\ match LenientVariant.extract rnd text n with
     | Ret keywordList _ => Forall (fun d => 0 < volume d) keywordList
     | Raise _ => True
     end.
Proof.
  intros Hr. split; [|split].
  - destruct (table_parseTable_total rnd text n) as (kl0 & n0 & E0 & F0).
    destruct (table_rescan_total rnd text kl0 n0) as (added & n1 & E1 & F1 & _).
    unfold TableVariant.extract, bind. rewrite E0, E1.
    destruct (kl0 ++ added) eqn:K; [exact I|]. cbn [List.length Nat.eqb].
    unfold ret. rewrite <- K. apply Forall_app. split.
    + eapply Forall_impl; [|exact F0]. intros d (_ & _ & H). now apply H.
    + eapply Forall_impl; [|exact F1]. intros d (_ & H).
      destruct (H Hr) as (_ & _ & _ & V). lia.
  - destruct (data_extract_cases rnd text n) as (kl0 & n0 & E0 & E).
    destruct (data_parseTable_total rnd text n) as (kl0' & n0' & E0' & F0).
    rewrite E0 in E0'. injection E0' as <- <-.
    destruct kl0 as [|d kl0], (DataVariant.salvageWords text) as [|w ws];
      rewrite E; try exact I.
    + apply Forall_forall. intros d Hd. apply in_map_iff in Hd as (w' & <- & _).
      reflexivity.
    + eapply Forall_impl; [|exact F0]. intros x (_ & H). now apply H.
    + eapply Forall_impl; [|exact F0]. intros x (_ & H). now apply H.
  - destruct (lenient_parseTable_total rnd text n) as (kl0 & n0 & E0 & F0).
    unfold LenientVariant.extract, bind, ret. rewrite E0.
    unfold LenientVariant.curatedFallback.
    assert (F : Forall (fun d => 0 < volume d) kl0).
    { eapply Forall_impl; [|exact F0]. intros d H. now apply H. }
    destruct (List.length kl0 <? 5)%nat; [|exact F].
    apply inject_Forall; [reflexivity | exact F].
Qed.

(** The revisions with the guard fail before any call is made, with a
    message that names the missing setting. *)
Lemma guarded_revisions_fail_fast (rnd : nat -> Q) (apiKey : option str)
    (profession now : str) (reply : Reply) :
  keyRejected apiKey = true ->
  DataVariant.getMarketAnalysis rnd apiKey profession now reply
  = {| calls := [];
       outcome := Failure (Error (Some DataVariant.configurationMessage)) |}
  /\ TableVariant.getMarketAnalysis rnd apiKey profession now reply
     = {| calls := [];
          outcome := Failure (Error (Some TableVariant.configurationMessage)) |}
  /\ includes DataVariant.configurationMessage (lit "API_KEY") = true
  /\ includes TableVariant.configurationMessage (lit "API_KEY") = true.
Proof.
  intros H. unfold DataVariant.getMarketAnalysis, TableVariant.getMarketAnalysis.
  rewrite H. repeat split.
Qed.

(** C2, evaluated where it fails: the fallback tiers accept records whose
    term is empty.  The token salvage turns the token [2024-2025.] of a
    prose reply into a record with the empty term; the line re-scan turns
    the line ["12. - rye bread"] into one; the row parser of the lenient
    revision accepts the row [" | 5 | up"] with the empty term.  (The
    volumes are positive in every tier: [accepted_volumes_positive].) *)
Theorem fallback_tiers_accept_empty_term (rnd : nat -> Q) :
  let synthetic w :=
    {| keyword := w; volume := 5000; trend := stable;
       changePercentage := Fin 0; relevanceScore := 50 |} in
  DataVariant.extract rnd proseText 0%nat
  = Ret [ synthetic (lit "SUMMARY"); synthetic (lit "Demand"); synthetic [] ] 0
  /\ outcome (DataVariant.getMarketAnalysis rnd (Some (lit "secret-key"))
                (lit "bakery") (lit "today") (Resolved (Some proseText) None))
     = Success
         {| profession := lit "bakery";
            summary := lit "Demand grew 12.5% in 2024-2025.";
            topKeywords :=
              [ synthetic (lit "SUMMARY"); synthetic (lit "Demand");
                synthetic [] ];
            sources := [];
            generatedAt := lit "today" |}
  /\ TableVariant.extract rnd (lit "12. - rye bread") 0%nat
     = Ret [ {| keyword := [];
                volume := Qfloor (rnd 0%nat * inject_Z 10000) + 1000;
                trend := stable;
                changePercentage := Fin 0; relevanceScore := 50 |} ] 1
  /\ LenientVariant.parseRow rnd 0 (lit " | 5 | up") 0%nat
     = Ret (Some {| keyword := []; volume := 5; trend := up;
                    changePercentage := Fin 0;
                    relevanceScore := Qfloor (rnd 0%nat * inject_Z 30) + 70 |}) 1.
Proof. intros synthetic. repeat split; vm_compute; reflexivity. Qed.

(** C4, evaluated where it fails: the row parser of the [DATA:] revision has
    no header filter and accepts the header rows
    ["Keyword|Volume|Trend|Change%"] and
    ["KEYWORD | VOLUME | TREND | CHANGE"] as records with a drawn volume.
    The row parser of the [DATA_TABLE:] revision rejects the header row, but
    the line re-scan of that revision reads the header line of the table
    again and accepts the term [Term]. *)
Theorem header_row_accepted (rnd : nat -> Q) (count n : nat) :
  DataVariant.parseRow rnd count (lit "Keyword|Volume|Trend|Change%") n
  = Ret (Some {| keyword := lit "Keyword";
                 volume := Qfloor (rnd n * inject_Z 15000) + 500;
                 trend := stable;
                 changePercentage := Fin 0;
                 relevanceScore := 100 - Z.of_nat count |}) (S n)
  /\ DataVariant.parseRow rnd count (lit "KEYWORD | VOLUME | TREND | CHANGE") n
     = Ret (Some {| keyword := lit "KEYWORD";
                    volume := Qfloor (rnd n * inject_Z 15000) + 500;
                    trend := stable;
                    changePercentage := Fin 0;
                    relevanceScore := 100 - Z.of_nat count |}) (S n)
  /\ TableVariant.parseRow rnd count (lit "Keyword|Volume|Trend|Change%") n
     = Ret None n
  /\ TableVariant.extract rnd headedTable 0%nat
     = Ret [ {| keyword := lit "Sourdough"; volume := 45000; trend := up;
                changePercentage := Fin 25; relevanceScore := 100 |};
             {| keyword := lit "Term";
                volume := Qfloor (rnd 0%nat * inject_Z 10000) + 1000;
                trend := stable;
                changePercentage := Fin 0; relevanceScore := 50 |};
             {| keyword := lit "Sourdough";
                volume := Qfloor (rnd 1%nat * inject_Z 10000) + 1000;
                trend := stable;
                changePercentage := Fin 0; relevanceScore := 50 |} ] 2.
Proof. repeat split; vm_compute; reflexivity. Qed.

(** C9, evaluated where it fails: without an API key (or with the text
    [undefined] in its place) the lenient revision makes the call to the
    model, with the empty key (or with [undefined]), and an error of the
    call is passed on as it is; the guarded revisions make no call and fail
    with the message that names [API_KEY]. *)
Theorem lenient_calls_model_without_key (rnd : nat -> Q)
    (profession now : str) (reply : Reply) :
  calls (LenientVariant.getMarketAnalysis rnd None profession now reply) = [[]]
  /\ calls (LenientVariant.getMarketAnalysis rnd (Some (lit "undefined"))
              profession now reply) = [lit "undefined"]
  /\ outcome (LenientVariant.getMarketAnalysis rnd None profession now
                (Rejected (Some (lit "API key not valid"))))
     = Failure (Error (Some (lit "API key not valid")))
  /\ DataVariant.getMarketAnalysis rnd None profession now reply
     = {| calls := [];
          outcome := Failure (Error (Some DataVariant.configurationMessage)) |}
  /\ TableVariant.getMarketAnalysis rnd None profession now reply
     = {| calls := [];
          outcome := Failure (Error (Some TableVariant.configurationMessage)) |}.
Proof. repeat split. Qed.

(* ================================================================== *)
(** * Further properties: texts, lines and rows *)
(* ================================================================== *)

Section Trimming.

Variable p : ascii -> bool.

Lemma dropWhile_head (s : str) : headOutside p (dropWhile p s).
Proof.
  induction s as [|c s IH]; simpl; [exact I|].
  destruct (p c) eqn:E; [exact IH | exact E].
Qed.

Lemma dropWhile_fixed (s : str) : headOutside p s -> dropWhile p s = s.
Proof. destruct s as [|c s]; simpl; [reflexivity|]. now intros ->. Qed.

Lemma dropWhile_suffix (s : str) : exists pre, s = pre ++ dropWhile p s.
Proof.
  induction s as [|c s [pre IH]]; simpl; [now exists []|].
  destruct (p c); [|now exists []].
  exists (c :: pre). simpl. now rewrite <- IH.
Qed.

Lemma dropWhile_idempotent (s : str) :
  dropWhile p (dropWhile p s) = dropWhile p s.
Proof. apply dropWhile_fixed, dropWhile_head. Qed.

End Trimming.

Lemma trimEnd_prefix (s : str) : exists suf, s = trimEnd s ++ suf.
Proof.
  unfold trimEnd. destruct (dropWhile_suffix isSpace (rev s)) as [pre E].
  exists (rev pre). rewrite <- rev_app_distr, <- E. now rewrite rev_involutive.
Qed.

Lemma trimEnd_idempotent (s : str) : trimEnd (trimEnd s) = trimEnd s.
Proof.
  unfold trimEnd. now rewrite rev_involutive, dropWhile_idempotent.
Qed.

Lemma trimEnd_head (s : str) :
  headOutside isSpace s -> headOutside isSpace (trimEnd s).
Proof.
  intros H. destruct (trimEnd_prefix s) as [suf E].
  destruct (trimEnd s) as [|c t]; [exact I|].
  rewrite E in H. exact H.
Qed.

(** [trim] leaves a trimmed text as it is. *)
Lemma trim_idempotent (s : str) : trim (trim s) = trim s.
Proof.
  unfold trim, trimStart.
  rewrite (@dropWhile_fixed isSpace (trimEnd (dropWhile isSpace s))).
  - apply trimEnd_idempotent.
  - apply trimEnd_head, dropWhile_head.
Qed.

Lemma trim_infix (s : str) : exists pre suf, s = pre ++ trim s ++ suf.
Proof.
  unfold trim, trimStart.
  destruct (dropWhile_suffix isSpace s) as [pre E].
  destruct (trimEnd_prefix (dropWhile isSpace s)) as [suf E'].
  exists pre, suf. now rewrite <- E', <- E.
Qed.

Section Markers.

Variable eqc : ascii -> ascii -> bool.
Variable pat : str.

Lemma prefixBy_app (x y : str) :
  prefixBy eqc pat x = true -> prefixBy eqc pat (x ++ y) = true.
Proof.
  revert x. induction pat as [|q pat' IH]; intros x H; [reflexivity|].
  destruct x as [|c x]; [discriminate|]. simpl in *.
  apply andb_prop in H as [H1 H2]. now rewrite H1, IH.
Qed.

Lemma occurs_app_l (x y : str) :
  occurs (prefixBy eqc pat) x = true -> occurs (prefixBy eqc pat) (x ++ y) = true.
Proof.
  induction x as [|c x IH]; simpl; [discriminate|]. intros H.
  apply orb_prop in H as [H|H].
  - change (c :: x ++ y) with ((c :: x) ++ y). now rewrite (prefixBy_app _ y H).
  - rewrite (IH H). apply orb_true_r.
Qed.

Lemma occurs_app_r (stop : str -> bool) (x y : str) :
  occurs stop y = true -> occurs stop (x ++ y) = true.
Proof.
  intros H. induction x as [|c x IH]; simpl; [exact H|].
  rewrite IH. apply orb_true_r.
Qed.

Lemma takeUntil_prefix (stop : str -> bool) (s : str) :
  exists rest, s = takeUntil stop s ++ rest.
Proof.
  induction s as [|c s [rest IH]]; simpl; [now exists []|].
  destruct (stop (c :: s)); [now exists (c :: s)|].
  exists rest. simpl. now rewrite <- IH.
Qed.

(** The lazy capture stops before the first place where the marker stands. *)
Lemma takeUntil_no_marker (s : str) :
  occurs (prefixBy eqc pat) (takeUntil (prefixBy eqc pat) s) = false.
Proof.
  induction s as [|c s IH]; [reflexivity|].
  cbn [takeUntil]. destruct (prefixBy eqc pat (c :: s)) eqn:E; [reflexivity|].
  cbn [occurs]. rewrite IH, orb_false_r.
  destruct (takeUntil_prefix (prefixBy eqc pat) s) as [rest R].
  destruct (prefixBy eqc pat (c :: takeUntil (prefixBy eqc pat) s)) eqn:F;
    [|reflexivity].
  apply (prefixBy_app _ rest) in F. simpl app in F. rewrite <- R in F. congruence.
Qed.

Lemma trim_no_marker (s : str) :
  occurs (prefixBy eqc pat) s = false ->
  occurs (prefixBy eqc pat) (trim s) = false.
Proof.
  intros H. destruct (trim_infix s) as (pre & suf & E).
  destruct (occurs (prefixBy eqc pat) (trim s)) eqn:F; [|reflexivity].
  apply (occurs_app_l _ suf) in F. apply (occurs_app_r _ pre) in F.
  rewrite <- E in F. congruence.
Qed.

Lemma summaryBetween_no_marker (m : str -> option nat) (placeholder text : str) :
  occurs (prefixBy eqc pat) placeholder = false ->
  occurs (prefixBy eqc pat)
    (summaryBetween m (prefixBy eqc pat) placeholder text) = false.
Proof.
  intros H. unfold summaryBetween.
  destruct (afterFirst m text); [|exact H].
  apply trim_no_marker, takeUntil_no_marker.
Qed.

End Markers.

Lemma summaryBetween_trimmed (m : str -> option nat) (stop : str -> bool)
    (placeholder text : str) :
  trim placeholder = placeholder ->
  trim (summaryBetween m stop placeholder text)
  = summaryBetween m stop placeholder text.
Proof.
  intros H. unfold summaryBetween.
  destruct (afterFirst m text); [apply trim_idempotent | exact H].
Qed.

(** X6. In every revision the summary of a report has no white space at
    its ends and does not hold the marker that ends the summary section
    ([DATA:], [DATA_TABLE:] in any case, or [KEYWORDS_START]), whether it
    was cut out of the text or is the placeholder. *)
Theorem summary_trimmed_without_marker (text : str) :
  (trim (DataVariant.extractSummary text) = DataVariant.extractSummary text
   /\ occurs (startsWith (lit "DATA:")) (DataVariant.extractSummary text) = false)
  /\ (trim (TableVariant.extractSummary text) = TableVariant.extractSummary text
      /\ occurs (startsWithI (lit "DATA_TABLE:"))
           (TableVariant.extractSummary text) = false)
  /\ (trim (GenericVariant.extractSummary text) = GenericVariant.extractSummary text
      /\ occurs (startsWithI (lit "DATA_TABLE:"))
           (GenericVariant.extractSummary text) = false)
  /\ (trim (LenientVariant.extractSummary text) = LenientVariant.extractSummary text
      /\ occurs (startsWith (lit "KEYWORDS_START"))
           (LenientVariant.extractSummary text) = false).
Proof.
  repeat split;
    first [ apply summaryBetween_trimmed; vm_compute; reflexivity
          | apply summaryBetween_no_marker; vm_compute; reflexivity ].
Qed.

Section Splitting.

Variable p : ascii -> bool.

Lemma splitOn_length (s : str) :
  List.length (splitOn p s) = S (countChar p s).
Proof.
  unfold countChar. induction s as [|c s IH]; simpl; [reflexivity|].
  destruct (p c); simpl; [now rewrite IH|].
  destruct (splitOn p s); simpl in *; [discriminate | exact IH].
Qed.

Lemma splitOn_pieces (s : str) :
  Forall (fun w => Forall (fun c => p c = false) w) (splitOn p s).
Proof.
  induction s as [|c s IH]; simpl; [repeat constructor|].
  destruct (p c) eqn:E; [constructor; [constructor | exact IH]|].
  destruct (splitOn p s) as [|w ws]; [repeat constructor; exact E|].
  inversion IH; subst. constructor; [constructor|]; assumption.
Qed.

End Splitting.

Lemma splitOn_join (p : ascii -> bool) (sep : ascii) (s : str) :
  (forall c, p c = true -> c = sep) ->
  joinWith sep (splitOn p s) = s.
Proof.
  intros Hp. induction s as [|c s IH]; [reflexivity|].
  cbn [splitOn]. pose proof (@splitOn_nonempty p s) as Hne.
  destruct (p c) eqn:E.
  - apply Hp in E. subst c.
    destruct (splitOn p s) as [|w ws]; [congruence|].
    cbn [joinWith app]. cbn [joinWith] in IH. now rewrite IH.
  - destruct (splitOn p s) as [|w ws]; [congruence|].
    destruct ws as [|w' ws]; cbn [joinWith app] in *; now rewrite IH.
Qed.

(** X5. Splitting a text into lines, or a line into segments, loses
    nothing: the pieces joined with the separator give the text back, there
    is one piece more than there are separators, and no piece holds the
    separator. *)
Theorem split_round_trip (s : str) :
  (joinWith "010" (splitOn isNewline s) = s
   /\ List.length (splitOn isNewline s) = S (countChar isNewline s)
   /\ Forall (fun w => Forall (fun c => isNewline c = false) w)
        (splitOn isNewline s))
  /\ (joinWith "|" (splitOn isPipe s) = s
      /\ List.length (splitOn isPipe s) = S (countChar isPipe s)
      /\ Forall (fun w => Forall (fun c => isPipe c = false) w)
           (splitOn isPipe s)).
Proof.
  split; (split; [|split; [apply splitOn_length | apply splitOn_pieces]]);
    apply splitOn_join; intros c H; now apply Ascii.eqb_eq in H.
Qed.

(** X4. In the [DATA_TABLE:] revisions a line with at least two pipes has at
    least three segments: once the test on the pipes has passed, the test
    [parts.length >= 3] cannot fail. *)
Theorem two_pipes_give_three_segments (line : str) :
  (2 <=? countChar isPipe line)%nat = true ->
  (3 <=? List.length (map trim (splitOn isPipe line)))%nat = true.
Proof.
  intros H. apply Nat.leb_le in H. apply Nat.leb_le.
  rewrite length_map, splitOn_length. lia.
Qed.

Lemma two_pipes_give_three_segments_witness :
  (2 <=? countChar isPipe (lit "Sourdough | 45,000 | Up | 25%"))%nat = true
  /\ (3 <=? List.length
        (map trim (splitOn isPipe (lit "Sourdough | 45,000 | Up | 25%"))))%nat
     = true.
Proof.
  split; [reflexivity|]. apply two_pipes_give_three_segments. reflexivity.
Defined.

(** X2. The table parser never throws, and every row it accepts has a term
    longer than one code unit; in the [DATA_TABLE:] revision the term holds
    neither [term] nor [keyword], in any case. *)
Theorem table_rows_have_proper_terms (rnd : nat -> Q) (text : str) (n : nat) :
  match DataVariant.parseTable rnd text n with
  | Ret rows _ => Forall properTerm rows
  | Raise _ => False
  end
  /\ match TableVariant.parseTable rnd text n with
     | Ret rows _ => Forall (fun d => properTerm d /\ headerFree d) rows
     | Raise _ => False
     end.
Proof.
  split.
  - destruct (data_parseTable_total rnd text n) as (rows & n' & E & F).
    rewrite E. eapply Forall_impl; [|exact F]. now intros d [H _].
  - destruct (table_parseTable_total rnd text n) as (rows & n' & E & F).
    rewrite E. eapply Forall_impl; [|exact F]. now intros d (H1 & H2 & _).
Qed.

Lemma accepted_volumes_positive_witness :
  unitInterval half
  /\ match TableVariant.extract half headedTable 0%nat with
     | Ret keywordList _ => Forall (fun d => 0 < volume d) keywordList
     | Raise _ => True
     end.
Proof.
  split; [apply half_unitInterval|].
  exact (proj1 (@accepted_volumes_positive half headedTable 0%nat half_unitInterval)).
Defined.

(* ================================================================== *)
(** * Further properties: sources and the assembler *)
(* ================================================================== *)

Lemma orDefault_truthy (o : option str) (d : str) :
  truthy d = true -> truthy (orDefault o d) = true.
Proof. intros H. destruct o as [[|c s]|]; simpl; auto. Qed.

Lemma sourceLabel_bounds (s : Source) :
  truthy (title s) = true ->
  truthy (App.sourceLabel s) = true
  /\ (List.length (App.sourceLabel s) <= 28)%nat.
Proof.
  intros H. unfold App.sourceLabel.
  destruct (Nat.ltb_spec 25 (List.length (title s))) as [L|L].
  - rewrite length_app, length_firstn. simpl List.length. split; [|lia].
    destruct (title s); [discriminate | reflexivity].
  - split; [exact H | lia].
Qed.

(** X7. The sources of a report are the grounding chunks, one for one and
    in their order; a title or uri that is absent or empty is replaced by
    the placeholder, so no source has an empty title or uri, and the label
    the component shows for a source is not empty and at most 28 code units
    long. *)
Theorem sources_complete_and_labelled (fallbackTitle : str)
    (chunks : list Chunk) :
  truthy fallbackTitle = true ->
  let sources := sourcesOf fallbackTitle (Some chunks) in
  List.length sources = List.length chunks
  /\ Forall (fun s => truthy (title s) = true /\ truthy (uri s) = true
                      /\ truthy (App.sourceLabel s) = true
                      /\ (List.length (App.sourceLabel s) <= 28)%nat) sources
  /\ Forall2 (fun c s =>
                match web c with
                | Some (Some (x :: t), _) => title s = x :: t
                | _ => title s = fallbackTitle
                end
                /\ match web c with
                   | Some (_, Some (x :: u)) => uri s = x :: u
                   | _ => uri s = lit "#"
                   end) chunks sources.
Proof.
  intros Hf sources. subst sources. unfold sourcesOf.
  split; [apply length_map|]. split.
  - apply Forall_forall. intros s Hs. apply in_map_iff in Hs as (c & <- & _).
    assert (T : truthy (title (match web c with
                               | Some (t, u) => mkSource (orDefault t fallbackTitle) (orDefault u (lit "#"))
                               | None => mkSource fallbackTitle (lit "#") end)) = true).
    { destruct (web c) as [[t u]|]; simpl; [now apply orDefault_truthy | exact Hf]. }
    split; [exact T|]. split.
    + destruct (web c) as [[t u]|]; simpl; [now apply orDefault_truthy | reflexivity].
    + now apply sourceLabel_bounds.
  - induction chunks as [|c cs IH]; simpl; constructor; [|exact IH].
    destruct (web c) as [[[[|x t]|] [[|y u]|]]|]; simpl; auto.
Qed.

Section KeptAndDropped.

Lemma sorted_app_bounds (a b : list TrendData) :
  sortedDesc (a ++ b) ->
  Forall (fun d => Forall (fun d' => volume d' <= volume d) b) a.
Proof.
  unfold sortedDesc. induction a as [|x a IH]; simpl; intros H; [constructor|].
  inversion H as [|? ? Hs Hx]; subst. constructor; [|now apply IH].
  apply Forall_app in Hx as [_ Hx]. exact Hx.
Qed.

End KeptAndDropped.

(** X8. The report keeps the records of the highest volumes: the
    candidates are the keywords of the report and the dropped records, up
    to their order; records are dropped only beyond 50 candidates, and no
    dropped record has a higher volume than a kept one. *)
Theorem assemble_keeps_highest (keywordList : list TrendData) :
  exists dropped,
    Permutation keywordList (assemble keywordList ++ dropped)
    /\ List.length dropped = (List.length keywordList - 50)%nat
    /\ Forall (fun d => Forall (fun d' => volume d' <= volume d) dropped)
         (assemble keywordList).
Proof.
  exists (skipn 50 (sort byVolumeDesc keywordList)). unfold assemble.
  split; [rewrite firstn_skipn; apply sort_perm|].
  split; [rewrite length_skipn, sort_length; reflexivity|].
  apply sorted_app_bounds. rewrite firstn_skipn. apply sort_sorted.
Qed.

(* ================================================================== *)
(** * Further properties: the rows and the generic lines *)
(* ================================================================== *)

Section Numbering.

Variable A : Type.
Variable body : nat -> A -> M (option TrendData).

Lemma forEach_extends (xs : list A) : forall keywordList n result n',
  forEach (pushing body) xs keywordList n = Ret result n' ->
  exists added, result = keywordList ++ added.
Proof.
  induction xs as [|x xs IH]; intros kl n r n' H; simpl in H.
  - unfold ret in H. injection H as <- _. exists []. now rewrite app_nil_r.
  - unfold bind, pushing at 1, bind in H.
    destruct (body (List.length kl) x n) as [[d|] n1|e]; [| |discriminate];
      unfold ret in H; apply IH in H as [t ->].
    + exists (d :: t). now rewrite <- app_assoc.
    + now exists t.
Qed.

(** What [body] accepts at the count [c] has the relevance [100 - c]. *)
Hypothesis numbered :
  forall count x n,
    match body count x n with
    | Ret (Some d) _ => relevanceScore d = 100 - Z.of_nat count
    | _ => True
    end.

Lemma forEach_numbers (xs : list A) : forall keywordList n added n',
  forEach (pushing body) xs keywordList n = Ret (keywordList ++ added) n' ->
  map relevanceScore added
  = countdown (List.length keywordList) (List.length added).
Proof.
  induction xs as [|x xs IH]; intros kl n added n' E.
  - simpl in E. unfold ret in E. injection E as E _.
    rewrite <- (app_nil_r kl) in E at 1. apply app_inv_head in E. now subst.
  - simpl in E. unfold bind, pushing at 1, bind in E.
    pose proof (numbered (List.length kl) x n) as Hn.
    destruct (body (List.length kl) x n) as [[d|] n1|e]; [| |discriminate];
      unfold ret in E; [|now apply IH in E].
    destruct (forEach_extends _ _ _ E) as [t Ht].
    rewrite <- app_assoc in Ht. apply app_inv_head in Ht. subst added.
    replace (kl ++ [d] ++ t) with ((kl ++ [d]) ++ t) in E
      by (now rewrite <- app_assoc).
    apply IH in E. simpl. rewrite E, Hn, length_app. simpl.
    unfold countdown. simpl. now rewrite Nat.add_1_r.
Qed.

End Numbering.

Section GenericFacts.

Variable rnd : nat -> Q.

Lemma generic_parseRow_cases (count : nat) (line : str) (n : nat) :
  GenericVariant.parseRow rnd count line n = Ret None n
  \/ exists d n',
       GenericVariant.parseRow rnd count line n = Ret (Some d) n'
       /\ properTerm d /\ headerFree d
       /\ relevanceScore d = 100 - Z.of_nat count
       /\ (unitInterval rnd -> 0 < volume d).
Proof.
  unfold GenericVariant.parseRow.
  destruct (2 <=? countChar isPipe line)%nat; [|now left].
  destruct (map trim (splitOn isPipe line)) as [|p0 [|p1 [|p2 rest]]];
    try (now left).
  cbn [List.length Nat.leb nth_error member bind ret].
  set (kw := stripNumbering isDotOrParen p0).
  destruct (truthy kw && (1 <? List.length kw)%nat
            && negb (includes (toLowerCase kw) (lit "term"))
            && negb (includes (toLowerCase kw) (lit "keyword"))) eqn:E;
    [|now left].
  apply andb_prop in E as [E E3]. apply andb_prop in E as [E E2].
  apply andb_prop in E as [_ E1].
  apply Nat.ltb_lt in E1. apply negb_true_iff in E2, E3.
  right. set (vol := orZeroZ _).
  destruct (Z.ltb_spec 0 vol) as [Hv|Hv].
  - eexists _, n. unfold bind, ret. split; [reflexivity|].
    unfold properTerm, headerFree; simpl. auto.
  - unfold bind, ret, randomInt. eexists _, (S n). split; [reflexivity|].
    unfold properTerm, headerFree; cbn [keyword relevanceScore volume].
    do 3 (split; [auto|]).
    intros Hr. pose proof (randomInt_range 500 n Hr (range := 10000)). lia.
Qed.

Lemma generic_genericRow_cases (count : nat) (line : str) (n : nat) :
  GenericVariant.genericRow rnd count line n = Ret None n
  \/ exists d,
       GenericVariant.genericRow rnd count line n = Ret (Some d) (S n)
       /\ genericRecord d
       /\ (unitInterval rnd -> 1000 <= volume d < 6000).
Proof.
  unfold GenericVariant.genericRow.
  pose proof (@splitOn_nonempty GenericVariant.isPipeColonDash line) as Hne.
  destruct (splitOn GenericVariant.isPipeColonDash line) as [|s0 rest];
    [congruence|].
  cbn [nth_error member bind ret].
  set (kw := stripNumbering isDotOrParen (trim s0)).
  destruct ((2 <? List.length kw)%nat && (List.length kw <? 50)%nat
            && negb (includes (toLowerCase kw) (lit "summary"))) eqn:E;
    [|now left].
  apply andb_prop in E as [E E3]. apply andb_prop in E as [E1 E2].
  apply Nat.ltb_lt in E1, E2. apply negb_true_iff in E3.
  right. unfold bind, ret, randomInt. eexists. split; [reflexivity|].
  unfold genericRecord. cbn [keyword trend relevanceScore changePercentage volume].
  split; [auto|].
  intros Hr. pose proof (randomInt_range 1000 n Hr (range := 5000)). lia.
Qed.

Lemma generic_parseRow_accepts :
  accepts (GenericVariant.parseRow rnd)
    (fun _ d => properTerm d /\ headerFree d
                /\ (unitInterval rnd -> 0 < volume d)).
Proof.
  intros count line n.
  destruct (generic_parseRow_cases count line n)
    as [E|(d & n' & E & H1 & H2 & _ & H3)]; rewrite E; auto.
Qed.

Lemma generic_genericRow_accepts :
  accepts (GenericVariant.genericRow rnd)
    (fun _ d => genericRecord d
                /\ (unitInterval rnd -> 1000 <= volume d < 6000)).
Proof.
  intros count line n.
  destruct (generic_genericRow_cases count line n) as [E|(d & E & H)];
    rewrite E; auto.
Qed.

Lemma generic_parseTable_total (text : str) (n : nat) :
  exists keywordList n',
    GenericVariant.parseTable rnd text n = Ret keywordList n'
    /\ Forall (fun d => properTerm d /\ headerFree d
                        /\ (unitInterval rnd -> 0 < volume d)) keywordList.
Proof.
  unfold GenericVariant.parseTable.
  destruct (GenericVariant.tablePart text) as [[|c t]|];
    try (exists [], n; split; [reflexivity | constructor]).
  destruct (forEach_pushing generic_parseRow_accepts
              (splitOn isNewline (trim (c :: t))) [] n)
    as (added & n' & E & F & _).
  exists added, n'. split; [exact E|].
  eapply Forall_impl; [|exact F]. intros d (_ & _ & H). exact H.
Qed.

Lemma genericLines_bound (text : str) :
  (List.length (GenericVariant.genericLines text) <= 50)%nat.
Proof. unfold GenericVariant.genericLines. rewrite length_firstn. lia. Qed.

End GenericFacts.

(** X15. In the second [DATA_TABLE:] revision, with draws in [0, 1), every
    row of the table parser has a proper term without header words and a
    positive volume.  The generic lines are read only when no row was
    accepted; they give at most 50 records, each with a term of 3 to 49
    code units that does not hold [summary], the trend stable, the
    relevance 50 and a volume from 1000 to 5999.  The extraction error is
    thrown exactly when both give nothing. *)
Theorem generic_candidates_proper (rnd : nat -> Q) (text : str) (n : nat) :
  unitInterval rnd ->
  exists rows n0,
    GenericVariant.parseTable rnd text n = Ret rows n0
    /\ Forall (fun d => properTerm d /\ headerFree d /\ 0 < volume d) rows
    /\ match rows with
       | _ :: _ => GenericVariant.extract rnd text n = Ret rows n0
       | [] =>
           exists added n1,
             GenericVariant.fallback rnd text [] n0 = Ret added n1
             /\ (List.length added <= 50)%nat
             /\ Forall (fun d => genericRecord d /\ 1000 <= volume d < 6000) added
             /\ match added with
                | _ :: _ => GenericVariant.extract rnd text n = Ret added n1
                | [] => GenericVariant.extract rnd text n
                        = Raise (Error (Some GenericVariant.extractionMessage))
                end
       end.
Proof.
  intros Hr.
  destruct (generic_parseTable_total rnd text n) as (rows & n0 & E0 & F0).
  exists rows, n0. split; [exact E0|]. split.
  { eapply Forall_impl; [|exact F0]. intros d (H1 & H2 & H3). auto. }
  destruct rows as [|d rows].
  - destruct (forEach_pushing (generic_genericRow_accepts rnd)
                (GenericVariant.genericLines text) [] n0)
      as (added & n1 & E1 & F1 & L1).
    exists added, n1. simpl in E1.
    assert (Ef : GenericVariant.fallback rnd text [] n0 = Ret added n1)
      by exact E1.
    split; [exact Ef|].
    split; [pose proof (genericLines_bound text); lia|].
    split.
    { eapply Forall_impl; [|exact F1]. intros x (_ & _ & G & V). auto. }
    unfold GenericVariant.extract, bind. rewrite E0, Ef.
    destruct added; reflexivity.
  - unfold GenericVariant.extract, bind. rewrite E0. reflexivity.
Qed.

Lemma generic_candidates_proper_witness :
  unitInterval half
  /\ exists rows n0,
       GenericVariant.parseTable half oneRowText 0%nat = Ret rows n0
       /\ Forall (fun d => properTerm d /\ headerFree d /\ 0 < volume d) rows.
Proof.
  split; [apply half_unitInterval|].
  destruct (@generic_candidates_proper half oneRowText 0%nat half_unitInterval)
    as (rows & n0 & E & F & _).
  exists rows, n0. split; [exact E | exact F].
Defined.

(** X3. The rows that a table parser accepts are numbered in their order:
    their relevance scores are 100, 99, 98, ... whatever lines were
    rejected in between. *)
Theorem rows_numbered_from_100 (rnd : nat -> Q) (text : str) (n : nat) :
  match DataVariant.parseTable rnd text n with
  | Ret rows _ => map relevanceScore rows = countdown 0 (List.length rows)
  | Raise _ => False
  end
  /\ match TableVariant.parseTable rnd text n with
     | Ret rows _ => map relevanceScore rows = countdown 0 (List.length rows)
     | Raise _ => False
     end
  /\ match GenericVariant.parseTable rnd text n with
     | Ret rows _ => map relevanceScore rows = countdown 0 (List.length rows)
     | Raise _ => False
     end.
Proof.
  split; [|split].
  - destruct (data_parseTable_total rnd text n) as (rows & n' & E & _).
    rewrite E. unfold DataVariant.parseTable in E.
    destruct (DataVariant.keywordSection text) as [|c t].
    + injection E as <- _. reflexivity.
    + apply (@forEach_numbers _ (DataVariant.parseRow rnd)) with (keywordList := []) in E;
        [exact E|].
      intros count x m.
      destruct (data_parseRow_cases rnd count x m) as [H|(d & m' & H & _ & R & _)];
        rewrite H; auto.
  - destruct (table_parseTable_total rnd text n) as (rows & n' & E & _).
    rewrite E. unfold TableVariant.parseTable in E.
    destruct (TableVariant.tablePart text) as [[|c t]|];
      try (injection E as <- _; reflexivity).
    apply (@forEach_numbers _ (TableVariant.parseRow rnd)) with (keywordList := []) in E;
      [exact E|].
    intros count x m.
    destruct (table_parseRow_cases rnd count x m) as [H|(d & m' & H & _ & _ & R & _)];
      rewrite H; auto.
  - destruct (generic_parseTable_total rnd text n) as (rows & n' & E & _).
    rewrite E. unfold GenericVariant.parseTable in E.
    destruct (GenericVariant.tablePart text) as [[|c t]|];
      try (injection E as <- _; reflexivity).
    apply (@forEach_numbers _ (GenericVariant.parseRow rnd)) with (keywordList := []) in E;
      [exact E|].
    intros count x m.
    destruct (generic_parseRow_cases rnd count x m) as [H|(d & m' & H & _ & _ & R & _)];
      rewrite H; auto.
Qed.

(* ================================================================== *)
(** * Further properties: the lenient revision *)
(* ================================================================== *)

Section LenientTiers.

Lemma curatedFallback_length (keywordList : list TrendData) :
  (5 <= List.length (LenientVariant.curatedFallback keywordList))%nat
  /\ (List.length keywordList
      <= List.length (LenientVariant.curatedFallback keywordList))%nat.
Proof.
  unfold LenientVariant.curatedFallback.
  destruct (Nat.ltb_spec (List.length keywordList) 5) as [H|H]; [|lia].
  rewrite (fold_inject fallbackWords_NoDup). fold (missingWords keywordList).
  rewrite length_app, length_map.
  pose proof (missingWords_length keywordList).
  pose proof (present_words_bound keywordList). lia.
Qed.

Lemma afterFirst_suffix (m : str -> option nat) (s rest : str) :
  afterFirst m s = Some rest -> exists pre, s = pre ++ rest.
Proof.
  induction s as [|c s IH]; simpl.
  - destruct (m []) as [k|]; [|discriminate]. intros H. injection H as <-.
    exists []. now destruct k.
  - destruct (m (c :: s)) as [k|].
    + intros H. injection H as <-. exists (firstn k (c :: s)).
      now rewrite firstn_skipn.
    + intros H. destruct (IH H) as [pre ->]. now exists (c :: pre).
Qed.

Lemma keywordBlock_unclosed (text : str) :
  occurs (startsWith (lit "KEYWORDS_END")) text = false ->
  LenientVariant.keywordBlock text = None.
Proof.
  intros H. unfold LenientVariant.keywordBlock.
  destruct (afterFirst (matchLit (lit "KEYWORDS_START")) text) as [rest|] eqn:E;
    [|reflexivity].
  destruct (occurs (startsWith (lit "KEYWORDS_END")) rest) eqn:F; [|reflexivity].
  destruct (afterFirst_suffix _ _ E) as [pre ->].
  apply (occurs_app_r _ pre) in F. congruence.
Qed.

Variable rnd : nat -> Q.

Lemma lenient_parseRow_bounds :
  accepts (LenientVariant.parseRow rnd)
    (fun _ d => unitInterval rnd -> 0 < volume d /\ 70 <= relevanceScore d < 100).
Proof.
  intros count line n.
  destruct (lenient_parseRow_cases rnd count line n) as [E|(d & n' & E & H)];
    rewrite E; [exact I | exact H].
Qed.

End LenientTiers.

(** X11. For a response that arrived, the lenient revision always returns
    a report, whatever the text (even none) and whatever the key: it never
    throws, and the report has between 5 and 50 keywords. *)
Theorem lenient_always_reports (rnd : nat -> Q) (apiKey : option str)
    (profession now : str) (response : option str)
    (chunks : option (list Chunk)) :
  exists report,
    outcome (LenientVariant.getMarketAnalysis rnd apiKey profession now
               (Resolved response chunks)) = Success report
    /\ (5 <= List.length (topKeywords report) <= 50)%nat.
Proof.
  unfold LenientVariant.getMarketAnalysis, LenientVariant.analyse,
    LenientVariant.extract. cbn [outcome]. unfold bind.
  destruct (lenient_parseTable_total rnd (orDefault response []) 0%nat)
    as (kl & n' & E & _).
  rewrite E. unfold ret. eexists. split; [reflexivity|].
  cbn [topKeywords]. rewrite assemble_length.
  pose proof (curatedFallback_length kl). lia.
Qed.

(** X12. In the lenient revision a reply without [KEYWORDS_END] (a reply
    that was cut short) gives no row at all, whatever follows
    [KEYWORDS_START]: the candidates are exactly the five curated
    records. *)
Theorem lenient_unclosed_block_ignored (rnd : nat -> Q) (text : str) (n : nat) :
  occurs (startsWith (lit "KEYWORDS_END")) text = false ->
  LenientVariant.extract rnd text n
  = Ret (map LenientVariant.curated LenientVariant.fallbackWords) n.
Proof.
  intros H. unfold LenientVariant.extract, LenientVariant.parseTable, bind.
  rewrite (keywordBlock_unclosed text H). reflexivity.
Qed.

(** X13. In the lenient revision, with draws in [0, 1), the extraction
    never throws and every candidate, parsed or curated, has a positive
    volume and a relevance from 70 to 99. *)
Theorem lenient_candidates_bounded (rnd : nat -> Q) (text : str) (n : nat) :
  unitInterval rnd ->
  exists candidates n',
    LenientVariant.extract rnd text n = Ret candidates n'
    /\ Forall (fun d => 0 < volume d /\ 70 <= relevanceScore d < 100) candidates.
Proof.
  intros Hr. unfold LenientVariant.extract, bind, ret.
  assert (T : exists kl n', LenientVariant.parseTable rnd text n = Ret kl n'
              /\ Forall (fun d => 0 < volume d /\ 70 <= relevanceScore d < 100) kl).
  { unfold LenientVariant.parseTable.
    destruct (LenientVariant.keywordBlock text) as [block|];
      [|exists [], n; split; [reflexivity | constructor]].
    destruct (forEach_pushing (lenient_parseRow_bounds rnd)
                (splitOn isNewline (trim block)) [] n)
      as (added & n' & E & F & _).
    exists added, n'. split; [exact E|].
    eapply Forall_impl; [|exact F]. intros d (_ & _ & H). now apply H. }
  destruct T as (kl & n' & E & F). rewrite E. eexists _, _.
  split; [reflexivity|].
  unfold LenientVariant.curatedFallback.
  destruct (List.length kl <? 5)%nat; [|exact F].
  apply inject_Forall; [|exact F]. intros w. simpl. lia.
Qed.

(** X14. The curated fallback is idempotent: run on its own result it
    changes nothing. *)
Theorem curatedFallback_idempotent (keywordList : list TrendData) :
  LenientVariant.curatedFallback (LenientVariant.curatedFallback keywordList)
  = LenientVariant.curatedFallback keywordList.
Proof.
  pose proof (curatedFallback_length keywordList) as [H _].
  unfold LenientVariant.curatedFallback at 1.
  apply Nat.ltb_ge in H. now rewrite H.
Qed.

(* ================================================================== *)
(** * Further properties: errors and keys *)
(* ================================================================== *)

Lemma table_handler_message (e : Exn) : hasMessage (TableVariant.handler e).
Proof.
  unfold TableVariant.handler.
  destruct (includes _ (lit "403")); eexists; (split; [reflexivity|]);
    [reflexivity | now apply orDefault_truthy].
Qed.

Lemma data_handler_message (e : Exn) : hasMessage (DataVariant.handler e).
Proof.
  unfold DataVariant.handler.
  destruct (DataVariant.messageIncludes e (lit "403"));
    [eexists; split; reflexivity|].
  destruct (DataVariant.messageIncludes e (lit "429"));
    eexists; (split; [reflexivity|]); [reflexivity | now apply orDefault_truthy].
Qed.

(** X9. In the [DATA:] and [DATA_TABLE:] revisions every run, whatever the
    key and the reply of the model, ends in a report with at least one
    keyword or in an error that carries a message that is not empty. *)
Theorem guarded_failures_have_message (rnd : nat -> Q) (apiKey : option str)
    (profession now : str) (reply : Reply) :
  match outcome (DataVariant.getMarketAnalysis rnd apiKey profession now reply) with
  | Failure e => hasMessage e
  | Success report => topKeywords report <> []
  end
  /\ match outcome (TableVariant.getMarketAnalysis rnd apiKey profession now reply) with
     | Failure e => hasMessage e
     | Success report => topKeywords report <> []
     end.
Proof.
  split.
  - unfold DataVariant.getMarketAnalysis.
    destruct (keyRejected apiKey); cbn [outcome];
      [eexists; split; reflexivity|].
    destruct reply as [m|response chunks]; [apply data_handler_message|].
    unfold DataVariant.analyse.
    destruct (orDefault response []) as [|c t]; [apply data_handler_message|].
    unfold bind. pose proof (data_extract_nonempty rnd (c :: t) 0%nat) as X.
    destruct (DataVariant.extract rnd (c :: t) 0%nat) as [kl n1|e];
      [|apply data_handler_message].
    unfold ret. cbn [topKeywords]. now apply assemble_nonempty.
  - unfold TableVariant.getMarketAnalysis.
    destruct (keyRejected apiKey); cbn [outcome];
      [eexists; split; reflexivity|].
    destruct reply as [m|response chunks]; [apply table_handler_message|].
    unfold TableVariant.analyse.
    destruct (orDefault response []) as [|c t]; [apply table_handler_message|].
    unfold bind.
    destruct (table_extract_cases rnd (c :: t) 0%nat)
      as (kl0 & n0 & added & n1 & _ & _ & E).
    destruct (kl0 ++ added) eqn:K; rewrite E; [apply table_handler_message|].
    unfold ret. cbn [topKeywords]. now apply assemble_nonempty.
Qed.

Lemma keyRejected_short (k : str) :
  keyRejected (Some k) = false ->
  (5 <= List.length k)%nat /\ k <> lit "undefined".
Proof.
  unfold keyRejected. intros H.
  apply orb_false_iff in H as [H H3]. apply orb_false_iff in H as [_ H2].
  apply Nat.ltb_ge in H3. split; [exact H3|].
  intros ->. discriminate H2.
Qed.

(** X10. The [DATA:] and [DATA_TABLE:] revisions make at most one call to
    the model, and only with the key of the environment when it has at
    least five code units and is not the text [undefined]; a run that makes
    no call fails with the configuration message. *)
Theorem guarded_calls_carry_checked_key (rnd : nat -> Q) (apiKey : option str)
    (profession now : str) (reply : Reply) :
  (calls (DataVariant.getMarketAnalysis rnd apiKey profession now reply)
   = calls (TableVariant.getMarketAnalysis rnd apiKey profession now reply))
  /\ (List.length
        (calls (TableVariant.getMarketAnalysis rnd apiKey profession now reply))
      <= 1)%nat
  /\ Forall (fun k => apiKey = Some k /\ (5 <= List.length k)%nat
                      /\ k <> lit "undefined")
       (calls (TableVariant.getMarketAnalysis rnd apiKey profession now reply))
  /\ match calls (TableVariant.getMarketAnalysis rnd apiKey profession now reply) with
     | [] =>
         outcome (TableVariant.getMarketAnalysis rnd apiKey profession now reply)
         = Failure (Error (Some TableVariant.configurationMessage))
         /\ outcome (DataVariant.getMarketAnalysis rnd apiKey profession now reply)
            = Failure (Error (Some DataVariant.configurationMessage))
     | _ :: _ => True
     end.
Proof.
  unfold DataVariant.getMarketAnalysis, TableVariant.getMarketAnalysis.
  destruct (keyRejected apiKey) eqn:K; cbn [calls outcome List.length].
  - repeat split; auto.
  - split; [reflexivity|]. split; [lia|]. split; [|exact I].
    destruct apiKey as [k|]; [|discriminate K].
    constructor; [|constructor]. simpl.
    destruct (keyRejected_short k K). auto.
Qed.

(* ================================================================== *)
(** * Further properties: the component *)
(* ================================================================== *)

Section ExportedFile.

Lemma replaceRuns_no_space (by_ : str) (s : str) : forall b,
  Forall (fun c => isSpace c = false) by_ ->
  Forall (fun c => isSpace c = false) (App.replaceRuns isSpace by_ b s).
Proof.
  intros b Hb. revert b. induction s as [|c s IH]; intros b; simpl; [constructor|].
  destruct (isSpace c) eqn:E.
  - destruct b; [apply IH|]. apply Forall_app. split; [exact Hb | apply IH].
  - constructor; [exact E | apply IH].
Qed.

Lemma replaceRuns_length (s : str) : forall b,
  (List.length (App.replaceRuns isSpace (lit "_") b s) <= List.length s)%nat.
Proof.
  induction s as [|c s IH]; intros b; cbn [App.replaceRuns List.length]; [lia|].
  destruct (isSpace c).
  - destruct b; [specialize (IH true); lia|].
    rewrite length_app. change (List.length (lit "_")) with 1%nat.
    specialize (IH true). lia.
  - cbn [List.length]. specialize (IH false). lia.
Qed.

End ExportedFile.

(** X18. The name of an exported file holds no white space, whatever the
    profession typed: it starts with [Market_Report_] and is at most 19
    code units longer than the profession. *)
Theorem exportName_has_no_space (profession : str) (f : App.Format) :
  Forall (fun c => isSpace c = false) (App.exportName profession f)
  /\ startsWith (lit "Market_Report_") (App.exportName profession f) = true
  /\ (List.length (App.exportName profession f)
      <= 14 + List.length profession + 5)%nat.
Proof.
  unfold App.exportName. split; [|split].
  - apply Forall_app. split; [repeat constructor|].
    apply Forall_app. split.
    + apply replaceRuns_no_space. repeat constructor.
    + destruct f; repeat constructor.
  - reflexivity.
  - rewrite !length_app. pose proof (replaceRuns_length profession false).
    change (List.length (lit "Market_Report_")) with 14%nat.
    destruct f; cbn [App.extension];
      [ change (List.length (lit ".csv")) with 4%nat
      | change (List.length (lit ".txt")) with 4%nat
      | change (List.length (lit ".json")) with 5%nat
      | change (List.length (lit ".pdf")) with 4%nat ]; lia.
Qed.

Lemma sources_complete_and_labelled_witness :
  truthy (lit "Market Source") = true
  /\ List.length (sourcesOf (lit "Market Source") (Some twoChunks)) = 2%nat.
Proof.
  split; [reflexivity|].
  exact (proj1 (@sources_complete_and_labelled (lit "Market Source") twoChunks
                  eq_refl)).
Defined.

Lemma lenient_unclosed_block_ignored_witness :
  occurs (startsWith (lit "KEYWORDS_END")) unclosedText = false
  /\ LenientVariant.extract half unclosedText 0%nat
     = Ret (map LenientVariant.curated LenientVariant.fallbackWords) 0.
Proof.
  split; [reflexivity|].
  apply lenient_unclosed_block_ignored. reflexivity.
Defined.

Lemma lenient_candidates_bounded_witness :
  unitInterval half
  /\ exists candidates n',
       LenientVariant.extract half unclosedText 0%nat = Ret candidates n'
       /\ Forall (fun d => 0 < volume d /\ 70 <= relevanceScore d < 100)
            candidates.
Proof.
  split; [apply half_unitInterval|].
  apply lenient_candidates_bounded. apply half_unitInterval.
Defined.

(* ================================================================== *)
(** * The two tiers of the [DATA_TABLE:] revision, line by line *)
(* ================================================================== *)

Section AcceptedLines.

Variable A : Type.
Variable body : nat -> A -> M (option TrendData).
Variable accepted : A -> bool.
Variable term : A -> str.

(** [body] never throws; it accepts exactly the items of [accepted], each
    with the term [term] gives it. *)
Hypothesis decided :
  forall count x n,
    match body count x n with
    | Ret (Some d) _ => accepted x = true /\ keyword d = term x
    | Ret None _ => accepted x = false
    | Raise _ => False
    end.

Lemma forEach_keywords (xs : list A) : forall keywordList n,
  exists added n',
    forEach (pushing body) xs keywordList n = Ret (keywordList ++ added) n'
    /\ map keyword added = map term (filter accepted xs).
Proof.
  induction xs as [|x xs IH]; intros kl n.
  - exists [], n. simpl. unfold ret. now rewrite app_nil_r.
  - simpl. unfold bind, pushing at 1, bind.
    pose proof (decided (List.length kl) x n) as D.
    destruct (body (List.length kl) x n) as [[d|] n1|e]; [| |contradiction].
    + destruct D as [Da Dk]. unfold ret.
      destruct (IH (kl ++ [d]) n1) as (added & n' & E & K).
      exists (d :: added), n'. rewrite E, <- app_assoc, Da. simpl.
      now rewrite Dk, K.
    + unfold ret. rewrite D. apply IH.
Qed.

End AcceptedLines.

Section Rescan.

Variable rnd : nat -> Q.

Lemma hd_map_trim (l : list str) : hd [] (map trim l) = trim (hd [] l).
Proof. destruct l; reflexivity. Qed.

(** The row parser decides by [rowAccepted]. *)
Lemma table_parseRow_decides (count : nat) (line : str) (n : nat) :
  match TableVariant.parseRow rnd count line n with
  | Ret (Some d) _ => rowAccepted line = true /\ keyword d = rowTerm line
  | Ret None _ => rowAccepted line = false
  | Raise _ => False
  end.
Proof.
  unfold TableVariant.parseRow, rowAccepted, rowTerm.
  destruct (Nat.leb_spec 2 (countChar isPipe line)) as [Hp|Hp]; [|reflexivity].
  pose proof (splitOn_length isPipe line) as L.
  rewrite <- (hd_map_trim (splitOn isPipe line)).
  rewrite <- (length_map trim) in L.
  destruct (map trim (splitOn isPipe line)) as [|p0 [|p1 [|p2 rest]]];
    try (simpl in L; lia).
  cbn [List.length Nat.leb nth_error member bind ret hd andb].
  set (kw := stripNumbering isDotOrParen p0).
  destruct (truthy kw && (1 <? List.length kw)%nat
            && negb (includes (toLowerCase kw) (lit "term"))
            && negb (includes (toLowerCase kw) (lit "keyword"))) eqn:E;
    [|reflexivity].
  destruct (0 <? orZeroZ _); unfold bind, ret, randomInt; cbn [keyword]; auto.
Qed.

(** The re-scan decides by [looseAccepted] and builds [looseRecordAt]. *)
Lemma table_looseRow_decides (count : nat) (line : str) (n : nat) :
  TableVariant.looseRow rnd count line n
  = if looseAccepted line
    then Ret (Some (looseRecordAt rnd line n)) (S n)
    else Ret None n.
Proof.
  unfold TableVariant.looseRow, looseAccepted, looseRecordAt, looseTerm.
  rewrite length_map.
  destruct (splitOn isDashOrPipe line) as [|s0 [|s1 rest]]; try reflexivity.
  cbn [map List.length Nat.leb nth_error member bind ret hd andb].
  destruct (2 <? List.length (trim s0))%nat; [|reflexivity].
  destruct (List.length (trim s0) <? 50)%nat; [|reflexivity].
  cbn [andb].
  destruct (negb _ && negb _); reflexivity.
Qed.

Lemma forEach_looseRecords (lines : list str) : forall keywordList n,
  forEach (pushing (TableVariant.looseRow rnd)) lines keywordList n
  = Ret (keywordList ++ looseRecords rnd lines n)
        (n + List.length (looseRecords rnd lines n)).
Proof.
  induction lines as [|line lines IH]; intros kl n.
  - simpl. unfold ret. now rewrite app_nil_r, Nat.add_0_r.
  - simpl. unfold bind, pushing at 1, bind.
    rewrite table_looseRow_decides.
    destruct (looseAccepted line); unfold ret; rewrite IH.
    + rewrite <- app_assoc. simpl. f_equal. lia.
    + reflexivity.
Qed.

Lemma looseRecords_each (lines : list str) : forall n,
  Forall (fun d => exists line m,
            In line lines /\ looseAccepted line = true
            /\ d = looseRecordAt rnd line m)
    (looseRecords rnd lines n).
Proof.
  induction lines as [|line lines IH]; intros n; simpl; [constructor|].
  destruct (looseAccepted line) eqn:E.
  - constructor; [exists line, n; auto|].
    eapply Forall_impl; [|apply IH]. intros d (l & m & H1 & H2 & H3).
    exists l, m. auto.
  - eapply Forall_impl; [|apply IH]. intros d (l & m & H1 & H2 & H3).
    exists l, m. auto.
Qed.

Lemma looseRecords_keywords (lines : list str) : forall n,
  map keyword (looseRecords rnd lines n)
  = map looseTerm (filter looseAccepted lines).
Proof.
  induction lines as [|line lines IH]; intros n; simpl; [reflexivity|].
  destruct (looseAccepted line); simpl; now rewrite IH.
Qed.

Lemma table_parseTable_keywords (text : str) (n : nat) :
  exists rows n0,
    TableVariant.parseTable rnd text n = Ret rows n0
    /\ map keyword rows = map rowTerm (filter rowAccepted (tableLines text)).
Proof.
  unfold TableVariant.parseTable, tableLines.
  destruct (TableVariant.tablePart text) as [[|c t]|];
    try (exists [], n; split; reflexivity).
  destruct (forEach_keywords (TableVariant.parseRow rnd) rowAccepted rowTerm
              table_parseRow_decides (splitOn isNewline (trim (c :: t))) [] n)
    as (added & n0 & E & K).
  exists added, n0. split; [exact E | exact K].
Qed.

End Rescan.

(** C7.  The line-based re-scan of the [DATA_TABLE:] revision.  The table
    parser never throws, and the terms of its rows are those of the lines
    of the table part that it accepts, in their order.  The re-scan never
    throws and only appends: at five rows or more it adds nothing; below
    five it adds one record for each line of the whole text that it accepts
    (at least two segments between pipes and hyphens, the first one longer
    than two and shorter than fifty code units, its term without "summary"
    and "data"), each with the term of its line, trend stable,
    relevance 50, change 0 and a drawn volume from 1000 to 10999.  So the
    count after the re-scan is at least the count before it.  The
    extraction fails exactly when the table part has no accepted row and
    the text has no accepted line; otherwise it returns the rows of both
    tiers, and the report has at least one keyword and, up to the cap of
    fifty, at least as many as the table parser found. *)
Theorem rescan_appends_below_five (rnd : nat -> Q) (text : str) (n : nat) :
  unitInterval rnd ->
  exists kl0 n0 added n1,
    TableVariant.parseTable rnd text n = Ret kl0 n0
    /\ map keyword kl0 = map rowTerm (filter rowAccepted (tableLines text))
    /\ TableVariant.rescan rnd text kl0 n0 = Ret (kl0 ++ added) n1
    /\ ((5 <= List.length kl0)%nat /\ added = []
        \/ (List.length kl0 < 5)%nat
           /\ added = looseRecords rnd (splitOn isNewline text) n0)
    /\ n1 = (n0 + List.length added)%nat
    /\ Forall (fun d => looseRecord d
                        /\ exists line, In line (splitOn isNewline text)
                                        /\ looseAccepted line = true
                                        /\ keyword d = looseTerm line) added
    /\ (List.length kl0 <= List.length (kl0 ++ added))%nat
    /\ match filter rowAccepted (tableLines text),
             filter looseAccepted (splitOn isNewline text) with
       | [], [] =>
           TableVariant.extract rnd text n
           = Raise (Error (Some TableVariant.extractionMessage))
       | _, _ =>
           TableVariant.extract rnd text n = Ret (kl0 ++ added) n1
           /\ (1 <= List.length (assemble (kl0 ++ added)))%nat
           /\ (Nat.min (List.length kl0) 50
               <= List.length (assemble (kl0 ++ added)))%nat
       end.
Proof.
  intros Hr.
  destruct (table_parseTable_keywords rnd text n) as (kl0 & n0 & E0 & K0).
  set (lines := splitOn isNewline text).
  set (added := if (List.length kl0 <? 5)%nat
                then looseRecords rnd lines n0 else []).
  assert (E1 : TableVariant.rescan rnd text kl0 n0
               = Ret (kl0 ++ added) (n0 + List.length added)).
  { unfold TableVariant.rescan, added.
    destruct (List.length kl0 <? 5)%nat.
    - apply forEach_looseRecords.
    - unfold ret. now rewrite app_nil_r, Nat.add_0_r. }
  assert (F : Forall (fun d => looseRecord d
                        /\ exists line, In line lines
                                        /\ looseAccepted line = true
                                        /\ keyword d = looseTerm line) added).
  { unfold added. destruct (List.length kl0 <? 5)%nat; [|constructor].
    eapply Forall_impl; [|apply looseRecords_each].
    intros d (line & m & H1 & H2 & ->). split; [|exists line; auto].
    unfold looseRecord, looseRecordAt. cbn [trend relevanceScore changePercentage volume].
    do 3 (split; [reflexivity|]).
    pose proof (randomInt_range 1000 m Hr (range := 10000)). lia. }
  exists kl0, n0, added, (n0 + List.length added)%nat.
  split; [exact E0|]. split; [exact K0|]. split; [exact E1|].
  split.
  { unfold added. destruct (Nat.ltb_spec (List.length kl0) 5); [right | left]; auto. }
  split; [reflexivity|]. split; [exact F|].
  split; [rewrite length_app; lia|].
  assert (X : TableVariant.extract rnd text n
              = if (List.length (kl0 ++ added) =? 0)%nat
                then Raise (Error (Some TableVariant.extractionMessage))
                else Ret (kl0 ++ added) (n0 + List.length added)%nat).
  { unfold TableVariant.extract, bind. rewrite E0, E1.
    destruct (List.length (kl0 ++ added) =? 0)%nat; reflexivity. }
  destruct (filter rowAccepted (tableLines text)) as [|r rs] eqn:R.
  - destruct kl0 as [|d kl0]; [|discriminate K0].
    assert (Ea : added = looseRecords rnd lines n0) by reflexivity.
    pose proof (looseRecords_keywords rnd lines n0) as Ka. rewrite <- Ea in Ka.
    fold lines. destruct (filter looseAccepted lines) as [|l ls].
    + destruct added; [|discriminate Ka]. exact X.
    + destruct added as [|a added']; [discriminate Ka|].
      split; [exact X|]. rewrite assemble_length. cbn [app List.length]. lia.
  - destruct kl0 as [|d kl0]; [discriminate K0|].
    split; [exact X|]. rewrite assemble_length, length_app. cbn [List.length]. lia.
Qed.

Lemma rescan_appends_below_five_witness :
  unitInterval half
  /\ exists kl0 n0 added n1,
       TableVariant.parseTable half rowAmongProse 0%nat = Ret kl0 n0
       /\ map keyword kl0 = [lit "Sourdough"]
       /\ TableVariant.rescan half rowAmongProse kl0 n0 = Ret (kl0 ++ added) n1
       /\ added = [looseRecordAt half (lit "Sourdough | 45000 | Up | 25") n0]
       /\ Forall looseRecord added
       /\ TableVariant.extract half rowAmongProse 0%nat = Ret (kl0 ++ added) n1.
Proof.
  split; [apply half_unitInterval|].
  destruct (@rescan_appends_below_five half rowAmongProse 0%nat half_unitInterval)
    as (kl0 & n0 & added & n1 & E0 & K0 & E1 & C & _ & F & _ & X).
  exists kl0, n0, added, n1.
  split; [exact E0|]. split; [exact K0|]. split; [exact E1|].
  split.
  { destruct C as [[H _]|[_ H]]; [|exact H].
    apply (f_equal (@List.length _)) in K0. rewrite length_map in K0.
    rewrite K0 in H. vm_compute in H. lia. }
  split; [eapply Forall_impl; [|exact F]; intros d [H _]; exact H|].
  exact (proj1 X).
Defined.

(* ================================================================== *)
(** * The component: renders, analyses under way, the average *)
(* ================================================================== *)

Section Component.

Lemma step_wellFormed (w : App.World) (e : App.Event) :
  wellFormed w -> wellFormed (App.step w e).
Proof.
  destruct w as [[p s r err] v pend]. unfold wellFormed.
  cbn [App.state App.pending App.status App.error].
  intros (Hl & F & He).
  destruct e as [value| |i o| | |]; cbn [App.step App.state App.pending App.view].
  - cbn [App.status App.error]. auto.
  - destruct (App.returnsAtOnce v) eqn:G;
      cbn [App.state App.pending App.status App.error App.beginSearch];
      [auto|].
    split; [intros _ H; now apply app_eq_nil in H as [_ H]|].
    split; [|exact I].
    apply Forall_app. split; [exact F|]. repeat constructor.
    unfold App.returnsAtOnce in G. apply orb_false_iff in G as [G _].
    now apply negb_false_iff in G.
  - destruct (nth_error pend i);
      [|cbn [App.state App.pending App.status App.error]; auto].
    assert (F' : Forall (fun p => truthy (trim p) = true)
                   (firstn i pend ++ skipn (S i) pend)).
    { rewrite Forall_forall in *. intros x Hx. apply F.
      apply in_app_or in Hx as [Hx|Hx];
        [rewrite <- (firstn_skipn i pend) | rewrite <- (firstn_skipn (S i) pend)];
        apply in_or_app; auto. }
    destruct o as [data|x];
      cbn [App.finishSearch App.state App.pending App.status App.error
           App.isLoading].
    + split; [discriminate|]. split; [assumption | exact I].
    + split; [discriminate|]. split; [assumption|].
      eexists. split; [reflexivity|].
      unfold App.errorText. now apply orDefault_truthy.
  - destruct (App.isError (App.status v));
      cbn [App.state App.pending App.status App.error App.isLoading]; auto.
    split; [discriminate|]. auto.
  - cbn [App.handleUnload App.status App.error]. auto.
  - cbn [App.status App.error]. auto.
Qed.

Lemma step_resultsShown (w : App.World) (e : App.Event) :
  isUnload e = false -> resultsShown w -> resultsShown (App.step w e).
Proof.
  destruct w as [[p s r err] v pend]. unfold resultsShown.
  cbn [App.state App.status App.report].
  intros U H.
  destruct e as [value| |i o| | |];
    cbn [App.step App.state App.pending App.view];
    try discriminate U.
  - cbn [App.status App.report]. exact H.
  - destruct (App.returnsAtOnce v);
      cbn [App.state App.status App.report App.beginSearch]; [exact H | exact I].
  - destruct (nth_error pend i); cbn [App.state App.status App.report];
      [|exact H].
    destruct o; cbn [App.finishSearch App.status App.report];
      [discriminate | exact I].
  - destruct (App.isError (App.status v));
      cbn [App.state App.status App.report]; [exact I | exact H].
  - cbn [App.status App.report]. exact H.
Qed.

Lemma step_oneAtATime (w : App.World) (e : App.Event) :
  oneAtATime w -> oneAtATime (App.step (App.step w e) App.Render).
Proof.
  destruct w as [[p s r err] v pend]. unfold oneAtATime.
  cbn [App.state App.pending App.view App.status].
  intros (-> & L & Hl).
  destruct e as [value| |i o| | |];
    cbn [App.step App.state App.pending App.view App.status].
  - auto.
  - unfold App.returnsAtOnce. cbn [App.profession App.status].
    destruct (negb (truthy (trim p))); cbn [orb];
      [cbn [App.step App.state App.pending App.view App.status]; auto|].
    case_eq (App.isLoading s); intros Ls;
      cbn [App.step App.state App.pending App.view App.status App.beginSearch];
      [auto|].
    assert (pend = []) as ->.
    { destruct pend; [reflexivity|]. exfalso.
      assert (X : App.isLoading s = true) by (apply Hl; discriminate).
      congruence. }
    cbn [app List.length App.isLoading]. split; [reflexivity|].
    split; [lia|]. split; [discriminate | reflexivity].
  - destruct (nth_error pend i) eqn:E;
      cbn [App.step App.state App.pending App.view App.status]; [|auto].
    assert (firstn i pend ++ skipn (S i) pend = []) as ->.
    { destruct pend as [|q [|q' rest]]; [now destruct i | | simpl in L; lia].
      destruct i as [|[|i]]; [reflexivity | discriminate E | discriminate E]. }
    split; [reflexivity|]. split; [simpl; lia|].
    destruct o; cbn [App.finishSearch App.status App.isLoading];
      split; first [discriminate | congruence].
  - cbn [App.isError]. destruct s;
      cbn [App.isError App.step App.state App.pending App.view App.status];
      auto.
  - cbn [App.handleUnload App.status]. auto.
  - auto.
Qed.

Lemma run_invariant (P : App.World -> Prop) (ok : App.Event -> bool) :
  (forall w e, ok e = true -> P w -> P (App.step w e)) ->
  forall events w, forallb ok events = true -> P w ->
  P (fold_left App.step events w).
Proof.
  intros Hs. induction events as [|e events IH]; intros w Hok Hw; [exact Hw|].
  simpl in *. apply andb_prop in Hok as [H1 H2]. apply IH; auto.
Qed.

Lemma run_rendered (events : list App.Event) : forall w,
  oneAtATime w ->
  oneAtATime (fold_left App.step (App.renderedAfterEach events) w).
Proof.
  induction events as [|e events IH]; intros w H; [exact H|].
  cbn [App.renderedAfterEach flat_map app fold_left].
  apply IH. now apply step_oneAtATime.
Qed.

End Component.

(** X16.  The analyses of the component.  After any events, an analysis
    is under way whenever the state is [LOADING], every analysis under way
    was started for a profession that is not blank, and the [ERROR] state
    has a message to show.  When the component renders after each event,
    the handlers see the cells as they are, at most one analysis is under
    way, and one is under way exactly in the [LOADING] state.  Two submits
    handled by the same render both pass the test of [handleSearch]: two
    analyses are then under way. *)
Theorem component_one_request_per_render (events : list App.Event) :
  wellFormed (App.run events)
  /\ oneAtATime (App.run (App.renderedAfterEach events))
  /\ App.pending (App.run doubleSubmit) = [lit "Baker"; lit "Baker"].
Proof.
  split; [|split; [|reflexivity]].
  - unfold App.run.
    apply (@run_invariant wellFormed (fun _ => true)).
    + intros w e _. apply step_wellFormed.
    + clear. induction events; simpl; auto.
    + unfold wellFormed. cbn. split; [discriminate|]. split; [constructor | exact I].
  - unfold App.run. apply run_rendered.
    unfold oneAtATime. cbn. split; [reflexivity|]. split; [lia|].
    split; [discriminate | congruence].
Qed.

(** X17.  As long as the page is not left (no [beforeunload]), the
    [RESULTS] state has a report to show. *)
Theorem component_results_have_report (events : list App.Event) :
  forallb (fun e => negb (isUnload e)) events = true ->
  resultsShown (App.run events).
Proof.
  intros H. unfold App.run.
  apply (@run_invariant resultsShown (fun e => negb (isUnload e))).
  - intros w e U. apply step_resultsShown. now apply negb_true_iff.
  - exact H.
  - exact I.
Qed.

Lemma component_results_have_report_witness :
  forallb (fun e => negb (isUnload e)) searchTwice = true
  /\ App.status (App.state (App.run searchTwice)) = App.RESULTS
  /\ App.report (App.state (App.run searchTwice)) <> None.
Proof.
  split; [reflexivity|]. split; [reflexivity|].
  exact (@component_results_have_report searchTwice eq_refl).
Defined.

Section Average.

Lemma total_bounds (lo hi : Z) (l : list TrendData) :
  Forall (fun d => lo <= volume d <= hi) l ->
  forall acc,
    acc + Z.of_nat (List.length l) * lo
    <= fold_left (fun a k => a + volume k) l acc
    <= acc + Z.of_nat (List.length l) * hi.
Proof.
  induction 1 as [|d l Hd _ IH]; intros acc.
  - simpl. lia.
  - cbn [fold_left List.length]. specialize (IH (acc + volume d)).
    rewrite Nat2Z.inj_succ. nia.
Qed.

Lemma round_bounds (lo hi : Z) (x : Q) :
  (inject_Z lo <= x)%Q -> (x <= inject_Z hi)%Q ->
  lo <= App.round x <= hi.
Proof.
  intros Hlo Hhi. unfold App.round. split.
  - rewrite <- (Qfloor_Z lo). apply Qfloor_resp_le.
    eapply Qle_trans; [exact Hlo|].
    rewrite <- (Qplus_0_r x) at 1. apply Qplus_le_r. discriminate.
  - assert (H : Qfloor (x + (1 # 2)) < hi + 1); [|lia].
    rewrite Zlt_Qlt. eapply Qle_lt_trans; [apply Qfloor_le|].
    rewrite inject_Z_plus, (Qplus_comm x), (Qplus_comm (inject_Z hi)).
    apply Qplus_lt_le_compat; [reflexivity | exact Hhi].
Qed.

End Average.

(** X19.  The average monthly volume of a report with at least one
    keyword, when no volume is negative and the volumes stay in the range
    where the doubles of the component are exact (the length times the
    upper bound plus one, below 2^52): what is shown is a number, and it
    lies between any lower and upper bound that hold of all the volumes. *)
Theorem averageVolume_between_bounds (lo hi : Z) (topKeywords : list TrendData) :
  topKeywords <> [] ->
  Forall (fun d => lo <= volume d <= hi) topKeywords ->
  0 <= lo ->
  (hi + 1) * Z.of_nat (List.length topKeywords) < 2 ^ 52 ->
  exists a, App.averageVolume topKeywords = App.Rounded a /\ lo <= a <= hi.
Proof.
  intros Hne F Hlo Hhi. unfold App.averageVolume.
  destruct topKeywords as [|d l]; [congruence|].
  pose proof (total_bounds F 0) as T. rewrite !Z.add_0_l in T.
  set (len := Z.of_nat (List.length (d :: l))) in *.
  set (total := fold_left (fun a k => a + volume k) (d :: l) 0) in *.
  assert (Hpos : 0 < len) by (unfold len; simpl List.length; lia).
  assert (N : forallb (fun k => 0 <=? volume k) (d :: l) = true).
  { apply forallb_forall. intros k Hk. rewrite Forall_forall in F.
    apply Z.leb_le. specialize (F k Hk). lia. }
  assert (B : (total + len <? 2 ^ 52) = true) by (apply Z.ltb_lt; nia).
  rewrite N, B. cbn [andb]. eexists. split; [reflexivity|].
  assert (Hlen : (0 < inject_Z len)%Q).
  { change (inject_Z 0 < inject_Z len)%Q. now rewrite <- Zlt_Qlt. }
  apply round_bounds.
  - apply Qle_shift_div_l; [exact Hlen|].
    rewrite <- inject_Z_mult, <- Zle_Qle. lia.
  - apply Qle_shift_div_r; [exact Hlen|].
    rewrite <- inject_Z_mult, <- Zle_Qle. lia.
Qed.

Lemma averageVolume_between_bounds_witness :
  fourRows <> []
  /\ Forall (fun d => 7000 <= volume d <= 45000) fourRows
  /\ 0 <= 7000
  /\ (45000 + 1) * Z.of_nat (List.length fourRows) < 2 ^ 52
  /\ exists a, App.averageVolume fourRows = App.Rounded a /\ 7000 <= a <= 45000.
Proof.
  assert (N : fourRows <> []) by discriminate.
  assert (F : Forall (fun d => 7000 <= volume d <= 45000) fourRows).
  { repeat constructor; simpl; lia. }
  assert (L : 0 <= 7000) by lia.
  assert (B : (45000 + 1) * Z.of_nat (List.length fourRows) < 2 ^ 52)
    by reflexivity.
  split; [exact N|]. split; [exact F|]. split; [exact L|]. split; [exact B|].
  exact (averageVolume_between_bounds N F L B).
Defined.
